(** * mlrose-ky: the Continuous Peaks generator and the MIMIC runner

    A shallow embedding of
    - [mlrose_ky/generators/continuous_peaks_generator.py]
      ([ContinuousPeaksGenerator.generate]) and
    - [mlrose_ky/runners/mimic_runner.py]
      ([MIMICRunner.__init__], [_setup], [run]),
    together with the operators of the discrete optimisation problem that
    the search engine relies on.

    Python values are a small tagged union, exceptions are values of an
    error type, and the effects of the code (the process-wide numpy random
    state, the heap holding the caller's problem object, the calls into the
    runner base class) are threaded through a state-and-exception monad. *)

From Stdlib Require Import ZArith QArith Lia.
From stdpp Require Import base gmap strings list.

Open Scope Z_scope.

(** ** Python values *)

(** A Python [float]: binary64 is a finite rational, an infinity or a NaN.
    Comparisons of floats with each other and with integers are exact, so
    the rational value is all the comparisons below depend on. *)
Inductive pyfloat : Type :=
| FNan
| FInf (negative : bool)
| FFinite (q : Q).

Definition loc := positive.

Inductive pyval : Type :=
| PyNone
| PyBool (b : bool)
| PyInt (z : Z)
| PyFloat (f : pyfloat)
| PyStr (s : string)
| PyObj (l : loc).

(** [isinstance(v, int)]: [bool] is a subclass of [int]. *)
Definition isinstance_int (v : pyval) : bool :=
  match v with
  | PyBool _ | PyInt _ => true
  | _ => false
  end.

(** [isinstance(v, float)]. *)
Definition isinstance_float (v : pyval) : bool :=
  match v with
  | PyFloat _ => true
  | _ => false
  end.

(** [type(v).__name__]. *)
Definition type_name (v : pyval) : string :=
  match v with
  | PyNone => "NoneType"
  | PyBool _ => "bool"
  | PyInt _ => "int"
  | PyFloat _ => "float"
  | PyStr _ => "str"
  | PyObj _ => "object"
  end.

(** The integer an [int] instance stands for ([True] is 1, [False] is 0). *)
Definition int_value (v : pyval) : option Z :=
  match v with
  | PyBool b => Some (if b then 1 else 0)
  | PyInt z => Some z
  | _ => None
  end.

(** The number a numeric value stands for, as an extended rational. *)
Definition as_number (v : pyval) : option pyfloat :=
  match v with
  | PyBool b => Some (FFinite (inject_Z (if b then 1 else 0)))
  | PyInt z => Some (FFinite (inject_Z z))
  | PyFloat f => Some f
  | _ => None
  end.

(** [a <= b] on numbers: false as soon as one side is a NaN. *)
Definition float_le (a b : pyfloat) : bool :=
  match a, b with
  | FNan, _ | _, FNan => false
  | FInf true, _ => true
  | FInf false, FInf false => true
  | FInf false, _ => false
  | FFinite _, FInf negative => negb negative
  | FFinite x, FFinite y => Qle_bool x y
  end.

(** ** Exceptions and formatted messages *)

(** An f-string is kept as its fragments: literal text and the values
    interpolated into it. *)
Inductive fragment : Type :=
| Lit (s : string)
| Fmt (v : pyval).

Record pyexc : Type := PyExc { exc_class : string; exc_message : list fragment }.

Definition ValueError (msg : list fragment) : pyexc := PyExc "ValueError" msg.
Definition TypeError (msg : list fragment) : pyexc := PyExc "TypeError" msg.

(** ** The state-and-exception monad

    A computation runs in a state [S] and either returns a value or raises;
    the state changes made before a raise are kept, as in Python. *)
Definition M (S A : Type) : Type := S → (pyexc + A) * S.

Global Instance M_ret {S} : MRet (M S) := λ A x s, (inr x, s).

Global Instance M_bind {S} : MBind (M S) := λ A B f m s,
  match m s with
  | (inl e, s') => (inl e, s')
  | (inr a, s') => f a s'
  end.

Definition raise {S A} (e : pyexc) : M S A := λ s, (inl e, s).
Definition get_state {S} : M S S := λ s, (inr s, s).
Definition put_state {S} (s : S) : M S unit := λ _, (inr tt, s).

(** [a <= b] as Python evaluates it on numeric operands; any other operand
    raises [TypeError]. *)
Definition py_le {S} (a b : pyval) : M S bool :=
  match as_number a, as_number b with
  | Some x, Some y => mret (float_le x y)
  | _, _ =>
      raise (TypeError [Lit "'<=' not supported between instances of ";
                        Fmt (PyStr (type_name a)); Lit " and ";
                        Fmt (PyStr (type_name b))])
  end.

(** ** The optimisation problem built by the generator *)

(** The problem type tag every fitness evaluator declares. *)
Inductive prob_type : Type := discrete | continuous | tsp.

(** Modelled from the spec: the fitness evaluators of [mlrose_ky.fitness]
    (only their import list is in the source). [ContinuousPeaks] keeps its
    threshold as it was passed; every evaluator declares its problem type. *)
Inductive Fitness : Type :=
| ContinuousPeaks (t_pct : pyval)
| OtherFitness (name : string) (tag : prob_type).

Definition get_prob_type (f : Fitness) : prob_type :=
  match f with
  | ContinuousPeaks _ => discrete
  | OtherFitness _ tag => tag
  end.

(** Modelled from the spec: [DiscreteOpt], the discrete-encoded
    OptimizationProblem (its class is imported by the generator and is not
    in the source): length, fitness evaluator, maximise flag and the size of
    the value alphabet. *)
Record DiscreteOpt : Type := {
  length : Z;
  fitness_fn : Fitness;
  maximize : bool;
  max_val : Z
}.

(** Modelled from the spec: construction of a [DiscreteOpt] fails fast on a
    non-positive length (section 7); [maximize] and [max_val] take the
    defaults of a bit-string problem. *)
Definition DiscreteOpt_init {S} (length : pyval) (fitness_fn : Fitness) : M S DiscreteOpt :=
  match int_value length with
  | Some n =>
      if n <=? 0
      then raise (ValueError [Lit "length must be a positive integer. Got "; Fmt length])
      else mret {| length := n; fitness_fn := fitness_fn; maximize := true; max_val := 2 |}
  | None => raise (ValueError [Lit "length must be a positive integer. Got "; Fmt length])
  end.

(** ** numpy's process-wide random state

    [np.random.seed] belongs to numpy; it is taken as an interface: seeding
    either rejects the seed or yields the generator state that the seed
    determines. *)
Class Numpy : Type := {
  RandomState : Type;
  np_random_seed : Z → pyexc + RandomState
}.

Section ContinuousPeaksGenerator.
Context `{Numpy}.

(** [np.random.seed(seed)]: replaces the global state, or raises and
    leaves it as it was. *)
Definition seed_global (seed : Z) : M RandomState unit :=
  match np_random_seed seed with
  | inl e => raise e
  | inr g => put_state g
  end.

(** [ContinuousPeaksGenerator.generate(seed, size, t_pct)]. *)
Definition generate (seed : Z) (size t_pct : pyval) : M RandomState DiscreteOpt :=
  bad_size ← (if isinstance_int size then py_le size (PyInt 0) else mret true);
  if bad_size : bool
  then raise (ValueError [Lit "Size must be a positive integer. Got "; Fmt size])
  else
    if negb (isinstance_float t_pct)
    then raise (ValueError [Lit "Threshold percentage must be a float. Got ";
                            Fmt (PyStr (type_name t_pct))])
    else
      lower ← py_le (PyInt 0) t_pct;
      inside ← (if lower : bool then py_le t_pct (PyInt 1) else mret false);
      if negb inside
      then raise (ValueError [Lit "Threshold percentage must be between 0 and 1. Got ";
                              Fmt t_pct])
      else
        seed_global seed;;
        let fitness := ContinuousPeaks t_pct in
        DiscreteOpt_init size fitness.

(** The defaults of the signature: [seed=42, size=20, t_pct=0.1]. *)
Definition default_seed : Z := 42.
Definition default_size : pyval := PyInt 20.
Definition default_t_pct : pyval :=
  PyFloat (FFinite (3602879701896397 # 36028797018963968)).

Definition generate_kw (seed : option Z) (size t_pct : option pyval) : M RandomState DiscreteOpt :=
  generate (default default_seed seed) (default default_size size)
           (default default_t_pct t_pct).
End ContinuousPeaksGenerator.

(** A seeding that behaves as numpy's legacy seeding does on integers: seeds
    outside [0, 2^32 - 1] are rejected, any other seed fixes the state. *)
Definition numpy_legacy : Numpy := {|
  RandomState := Z;
  np_random_seed := λ seed,
    if (0 <=? seed) && (seed <? 2 ^ 32)
    then inr seed
    else inl (ValueError [Lit "Seed must be between 0 and 2**32 - 1"])
|}.

(** ** Objects, the heap and the calls that leave the runner

    The problem handed to a runner is the caller's object: the runner keeps
    a reference to it, so the object lives in a heap and a method called on
    it changes what the caller sees. An attribute is a data attribute or a
    callable one. *)
Inductive attr : Type :=
| Field (v : pyval)
| Method.

Abbreviation pyobject := (gmap string attr).
Abbreviation pyheap := (gmap loc pyobject).

(** [callable(a)]. *)
Definition callable (a : attr) : bool :=
  match a with
  | Method => true
  | Field _ => false
  end.

(** Attribute lookup: only heap objects carry the attributes looked up
    here; [None], numbers and strings have none of them. *)
Definition lookup_attr (h : pyheap) (v : pyval) (name : string) : option attr :=
  match v with
  | PyObj l => h !! l ≫= (λ o : pyobject, o !! name)
  | _ => None
  end.

(** The search algorithms of [mlrose_ky.algorithms]; the runner imports
    [mimic]. *)
Inductive algorithm : Type :=
| hill_climb
| random_hill_climb
| simulated_annealing
| genetic_alg
| mimic.

(** The keyword arguments of [_RunnerBase.__init__]. *)
Record RunnerBaseArgs : Type := {
  problem : pyval;
  experiment_name : string;
  seed : Z;
  iteration_list : list pyval;
  max_attempts : Z;
  generate_curves : bool;
  output_directory : option string;
  kwargs : list (string * pyval)
}.

(** A grid-search keyword of [run_experiment_]: the keyword maps to the
    pair of a display name and the values to try. *)
Abbreviation grid := (list (string * (string * list pyval))).

(** The calls that leave the code of [MIMICRunner]: into its base class
    and into the problem object. *)
Inductive event : Type :=
| SuperInit (args : RunnerBaseArgs)
| SuperSetup
| LogCurrentArgument (arg_name : string) (arg_value : pyval)
| RunExperiment (alg : algorithm) (params : grid)
| MethodCall (receiver : loc) (name : string) (args : list pyval).

(** [_RunnerBase] and the classes of the problem objects are not part of
    the source; they are an interface. [base_state] is what the base class
    keeps on [self], [outside] is everything else it can reach (files,
    signal handlers, counters). Each operation may read and change the heap
    and the outside, and may raise. *)
Class Environment : Type := {
  base_state : Type;
  outside : Type;
  DataFrame : Type;
  base_init : RunnerBaseArgs → pyheap * outside → (pyexc + base_state) * (pyheap * outside);
  base_setup : base_state → pyheap * outside → (pyexc + base_state) * (pyheap * outside);
  base_log_current_argument :
    string → pyval → base_state → pyheap * outside → (pyexc + base_state) * (pyheap * outside);
  base_run_experiment_ :
    algorithm → grid → base_state → pyheap * outside →
    (pyexc + (option DataFrame * option DataFrame) * base_state) * (pyheap * outside);
  call_method : loc → string → list pyval → pyheap * outside → (pyexc + pyval) * (pyheap * outside)
}.

Section MIMICRunner.
Context `{Environment}.

(** The state the runner code runs in: the heap, the outside, and the
    record of the calls made so far. *)
Record world : Type := {
  heap : pyheap;
  out : outside;
  calls : list event
}.

(** A call that leaves the runner: it is recorded, then the callee runs on
    the heap and the outside. *)
Definition external {A} (e : event)
    (callee : pyheap * outside → (pyexc + A) * (pyheap * outside)) : M world A :=
  λ w, let '(r, (h, o)) := callee (heap w, out w) in
       (r, {| heap := h; out := o; calls := calls w ++ [e] |}).

(** [hasattr(v, name)] and [getattr(v, name)]. *)
Definition hasattr (v : pyval) (name : string) : M world bool :=
  w ← get_state; mret (bool_decide (is_Some (lookup_attr (heap w) v name))).

Definition getattr (v : pyval) (name : string) : M world attr :=
  w ← get_state;
  match lookup_attr (heap w) v name with
  | Some a => mret a
  | None => raise (PyExc "AttributeError" [Fmt (PyStr (type_name v));
                                           Lit " object has no attribute "; Fmt (PyStr name)])
  end.

(** [v.name(args)]. *)
Definition call_attr (v : pyval) (name : string) (args : list pyval) : M world pyval :=
  a ← getattr v name;
  match v, a with
  | PyObj l, Method => external (MethodCall l name args) (call_method l name args)
  | _, _ => raise (TypeError [Fmt (PyStr (type_name v)); Lit " object is not callable"])
  end.

(** The attributes [MIMICRunner] adds to those of its base class. *)
Record MIMICRunner : Type := {
  base : base_state;
  keep_percent_list : list pyval;
  population_sizes : list pyval;
  _use_fast_mimic : option bool
}.

Definition with_base (self : MIMICRunner) (b : base_state) : MIMICRunner :=
  {| base := b;
     keep_percent_list := keep_percent_list self;
     population_sizes := population_sizes self;
     _use_fast_mimic := _use_fast_mimic self |}.

(** [MIMICRunner.__init__]. *)
Definition MIMICRunner_init
    (problem : pyval) (experiment_name : string) (seed : Z) (iteration_list : list pyval)
    (population_sizes keep_percent_list : list pyval)
    (max_attempts : Z) (generate_curves use_fast_mimic : bool)
    (output_directory : option string) (kwargs : list (string * pyval)) : M world MIMICRunner :=
  let super_args :=
    {| problem := problem; experiment_name := experiment_name; seed := seed;
       iteration_list := iteration_list; max_attempts := max_attempts;
       generate_curves := generate_curves; output_directory := output_directory;
       kwargs := kwargs |} in
  b ← external (SuperInit super_args) (base_init super_args);
  let self :=
    {| base := b; keep_percent_list := keep_percent_list;
       population_sizes := population_sizes; _use_fast_mimic := None |} in
  has ← hasattr problem "set_mimic_fast_mode";
  available ← (if has : bool
               then a ← getattr problem "set_mimic_fast_mode"; mret (callable a)
               else mret false);
  if available : bool
  then
    let self :=
      {| base := b; keep_percent_list := keep_percent_list;
         population_sizes := population_sizes; _use_fast_mimic := Some use_fast_mimic |} in
    call_attr problem "set_mimic_fast_mode" [PyBool use_fast_mimic];;
    mret self
  else mret self.

(** The defaults of the signature. *)
Definition default_max_attempts : Z := 5.
Definition default_generate_curves : bool := true.
Definition default_use_fast_mimic : bool := true.

(** [MIMICRunner._setup]. *)
Definition _setup (self : MIMICRunner) : M world MIMICRunner :=
  b ← external SuperSetup (base_setup (base self));
  let self := with_base self b in
  match _use_fast_mimic self with
  | Some flag =>
      b ← external (LogCurrentArgument "use_fast_mimic" (PyBool flag))
            (base_log_current_argument "use_fast_mimic" (PyBool flag) (base self));
      mret (with_base self b)
  | None => mret self
  end.

(** The keywords [run] passes to [run_experiment_]. *)
Definition mimic_grid (self : MIMICRunner) : grid :=
  [("pop_size", ("Population Size", population_sizes self));
   ("keep_pct", ("Keep Percent", keep_percent_list self))].

(** [MIMICRunner.run]: the pair of frames that [run_experiment_] returns,
    and [self] as the base class left it. *)
Definition run (self : MIMICRunner)
    : M world ((option DataFrame * option DataFrame) * MIMICRunner) :=
  '(frames, b) ← external (RunExperiment mimic (mimic_grid self))
                   (base_run_experiment_ mimic (mimic_grid self) (base self));
  mret (frames, with_base self b).
End MIMICRunner.

(** A small environment to run the runner in. The base class keeps its
    arguments and the arguments logged so far, a frame is the list of the
    grid's columns, and a problem's [set_mimic_fast_mode] stores the flag in
    the attribute [mimic_fast_mode] of the problem. *)
Definition store_flag (l : loc) (flag : pyval) (h : pyheap) : pyheap :=
  match h !! l with
  | Some o => <[l := <["mimic_fast_mode" := Field flag]> o]> h
  | None => h
  end.

Definition plain_environment : Environment := {|
  base_state := RunnerBaseArgs * list (string * pyval);
  outside := unit;
  DataFrame := list (string * list pyval);
  base_init := λ args s, (inr (args, []), s);
  base_setup := λ b s, (inr (b.1, []), s);
  base_log_current_argument := λ name value b s, (inr (b.1, b.2 ++ [(name, value)]), s);
  base_run_experiment_ := λ alg params b s,
    (inr ((Some (snd <$> params), None), b), s);
  call_method := λ l name args s,
    match name, args with
    | "set_mimic_fast_mode"%string, [flag] => (inr PyNone, (store_flag l flag s.1, s.2))
    | _, _ => (inl (TypeError [Lit "unsupported call"]), s)
    end
|}.

(** A problem object with the fast-mode toggle and one without it, in a
    heap of their own. *)
Definition toggle_problem : pyobject :=
  {[ "set_mimic_fast_mode"%string := Method; "length"%string := Field (PyInt 8) ]}.

Definition plain_problem : pyobject :=
  {[ "length"%string := Field (PyInt 8) ]}.

Definition sample_heap : pyheap :=
  {[ 1%positive := toggle_problem; 2%positive := plain_problem ]}.

Definition sample_world : world (H := plain_environment) :=
  @Build_world plain_environment sample_heap tt [].

(** ** The operators of a discrete problem

    The classes behind [DiscreteOpt] and the MIMIC algorithm are not in
    the source; their operators are modelled from sections 3, 4.1 and 4.5
    of the spec. A state is a list of integers; the alphabet of a problem
    [p] is [0 .. max_val p - 1].

    Randomness is an infinite sequence of raw draws and a cursor into it:
    quantifying over the sequence quantifies over every outcome of the
    random draws. *)
Record rng : Type := {
  draws : nat → Z;
  cursor : nat
}.

(** A computation that consumes random draws. *)
Definition R (A : Type) : Type := rng → A * rng.

Global Instance R_ret : MRet R := λ A x g, (x, g).

Global Instance R_bind : MBind R := λ A B f m g,
  let (a, g') := m g in f a g'.

Definition next_raw : R Z := λ g,
  (draws g (cursor g), {| draws := draws g; cursor := S (cursor g) |}).

(** An integer drawn from [0 .. n - 1]. *)
Definition randint (n : Z) : R Z :=
  x ← next_raw; mret (x mod n).

(** A rational drawn from the unit interval, 1 excluded. *)
Definition uniform : R Q :=
  x ← next_raw; mret ((x mod 9007199254740992) # 9007199254740992).

Definition state_length (p : DiscreteOpt) : nat := Z.to_nat (length p).

Definition is_tsp (p : DiscreteOpt) : bool :=
  match get_prob_type (fitness_fn p) with
  | tsp => true
  | _ => false
  end.

(** Exchange of the values at two positions; a position outside the
    state leaves it as it is. *)
Definition swap (s : list Z) (i j : nat) : list Z :=
  match s !! i, s !! j with
  | Some a, Some b => <[i := b]> (<[j := a]> s)
  | _, _ => s
  end.

Fixpoint draw_each (n : nat) (k : Z) : R (list Z) :=
  match n with
  | O => mret []
  | S n' => v ← randint k; vs ← draw_each n' k; mret (v :: vs)
  end.

(** A shuffle by exchanges: position [i] is exchanged with a position
    drawn from [0 .. i], for [i] going down to 1. *)
Fixpoint shuffle (i : nat) (s : list Z) : R (list Z) :=
  match i with
  | O => mret s
  | S i' => j ← randint (Z.of_nat (S i')); shuffle i' (swap s (S i') (Z.to_nat j))
  end.

(** Modelled from the spec: [random_state] draws a state from the legal
    encoding space (section 4.1): every position from the alphabet, or, for
    a permutation-structured problem, a permutation of the positions. *)
Definition random_state (p : DiscreteOpt) : R (list Z) :=
  if is_tsp p
  then shuffle (pred (state_length p)) (Z.of_nat <$> seq 0 (state_length p))
  else draw_each (state_length p) (max_val p).

(** Modelled from the spec: [random_neighbor] flips one position to a
    different legal value chosen uniformly, or, for a permutation-structured
    problem, swaps two positions (section 4.1). *)
Definition random_neighbor (p : DiscreteOpt) (s : list Z) : R (list Z) :=
  if is_tsp p
  then
    i ← randint (length p);
    j ← randint (length p);
    mret (swap s (Z.to_nat i) (Z.to_nat j))
  else
    i ← randint (length p);
    shift ← randint (max_val p - 1);
    let old := default 0 (s !! Z.to_nat i) in
    mret (<[Z.to_nat i := (old + 1 + shift) mod max_val p]> s).

(** Each position is re-drawn independently with probability
    [mutation_prob] (section 4.1). *)
Fixpoint mutate_each (k : Z) (mutation_prob : Q) (s : list Z) : R (list Z) :=
  match s with
  | [] => mret []
  | v :: rest =>
      u ← uniform;
      v' ← (if negb (Qle_bool mutation_prob u) then randint k else mret v);
      rest' ← mutate_each k mutation_prob rest;
      mret (v' :: rest')
  end.

(** Modelled from the spec: [mutate(state, mutation_prob)] on the alphabet
    of the problem. *)
Definition mutate (p : DiscreteOpt) (s : list Z) (mutation_prob : Q) : R (list Z) :=
  mutate_each (max_val p) mutation_prob s.

(** Modelled from the spec: the dependency tree of MIMIC (section 3), a
    root and the directed edges (parent, child) in the order of a traversal
    from the root to the leaves. *)
Record DependencyTree : Type := {
  root : nat;
  edges : list (nat * nat)
}.

Definition alphabet (p : DiscreteOpt) : list Z :=
  Z.of_nat <$> seq 0 (Z.to_nat (max_val p)).

Definition value_at (s : list Z) (i : nat) : Z := default 0 (s !! i).

Definition count_where (f : list Z → bool) (kept : list (list Z)) : Q :=
  inject_Z (Z.of_nat (List.length (List.filter f kept))).

(** Modelled from the spec: the table of the root is its marginal in the
    kept set and the table of any other node is conditional on the value
    of its parent, both from frequency counts with an additive pseudocount
    per category (section 4.5, steps 3 and 5). A table lists the weight of
    every value of the alphabet. *)
Definition marginal_table (p : DiscreteOpt) (kept : list (list Z))
    (pseudocount : Q) (i : nat) : list Q :=
  (λ v, count_where (λ s, value_at s i =? v) kept + pseudocount)%Q <$> alphabet p.

Definition conditional_table (p : DiscreteOpt) (kept : list (list Z))
    (pseudocount : Q) (child parent : nat) (parent_value : Z) : list Q :=
  (λ v, count_where (λ s, (value_at s parent =? parent_value) && (value_at s child =? v)) kept
        + pseudocount)%Q <$> alphabet p.

Definition total (table : list Q) : Q := foldr Qplus 0%Q table.

(** The first value whose cumulative weight exceeds [t]; the last value of
    the table when none does. *)
Fixpoint pick (table : list Q) (t : Q) : nat :=
  match table with
  | [] => O
  | [_] => O
  | w :: rest => if negb (Qle_bool w t) then O else S (pick rest (t - w)%Q)
  end.

Definition draw_from (table : list Q) : R Z :=
  u ← uniform; mret (Z.of_nat (pick table (u * total table)%Q)).

Fixpoint sample_edges (p : DiscreteOpt) (kept : list (list Z)) (pseudocount : Q)
    (es : list (nat * nat)) (s : list Z) : R (list Z) :=
  match es with
  | [] => mret s
  | (parent, child) :: rest =>
      v ← draw_from (conditional_table p kept pseudocount child parent (value_at s parent));
      sample_edges p kept pseudocount rest (<[child := v]> s)
  end.

(** Modelled from the spec: a state is sampled by traversing the tree from
    the root to the leaves, drawing the value of each position from its
    table given the value already drawn for its parent (section 4.5,
    step 6). *)
Definition sample_state (p : DiscreteOpt) (tree : DependencyTree)
    (kept : list (list Z)) (pseudocount : Q) : R (list Z) :=
  v ← draw_from (marginal_table p kept pseudocount (root tree));
  sample_edges p kept pseudocount (edges tree)
    (<[root tree := v]> (replicate (state_length p) 0)).

Fixpoint sample_population (p : DiscreteOpt) (tree : DependencyTree)
    (kept : list (list Z)) (pseudocount : Q) (pop_size : nat) : R (list (list Z)) :=
  match pop_size with
  | O => mret []
  | S n =>
      s ← sample_state p tree kept pseudocount;
      rest ← sample_population p tree kept pseudocount n;
      mret (s :: rest)
  end.

(** The states a search can come to hold: a random state, and whatever
    the operators make of states it already holds. *)
Inductive produced (p : DiscreteOpt) : list Z → Prop :=
| by_random_state g : produced p (random_state p g).1
| by_random_neighbor s g : produced p s → produced p (random_neighbor p s g).1
| by_mutate s mutation_prob g : produced p s → produced p (mutate p s mutation_prob g).1
| by_sampling tree kept pseudocount g :
    produced p (sample_state p tree kept pseudocount g).1.

(** An eight-bit problem, a tour problem over five positions, and a
    source of draws to run the operators on. *)
Definition eight_bits : DiscreteOpt :=
  {| length := 8; fitness_fn := OtherFitness "OneMax" discrete; maximize := true;
     max_val := 2 |}.

Definition five_cities : DiscreteOpt :=
  {| length := 5; fitness_fn := OtherFitness "TravellingSales" tsp; maximize := false;
     max_val := 5 |}.

Definition sample_rng : rng :=
  {| draws := λ i, (Z.of_nat (S i) * 2862933555777941757 + 3037000493) mod 2 ^ 61;
     cursor := 0 |}.

(** * Properties *)

(** ** Values and comparisons *)

Definition positive_int (v : pyval) : Prop :=
  ∃ n, int_value v = Some n ∧ 0 < n.

Definition in_unit_interval (v : pyval) : Prop :=
  ∃ q, as_number v = Some (FFinite q) ∧ (0 <= q)%Q ∧ (q <= 1)%Q.

Lemma float_le_zero_finite q : float_le (FFinite (inject_Z 0)) (FFinite q) = true ↔ (0 <= q)%Q.
Proof. simpl. apply Qle_bool_iff. Qed.

Lemma float_le_finite_one q : float_le (FFinite q) (FFinite (inject_Z 1)) = true ↔ (q <= 1)%Q.
Proof. simpl. apply Qle_bool_iff. Qed.

(** The chained comparison [0 <= t <= 1] on a float. *)
Definition unit_check (f : pyfloat) : bool :=
  float_le (FFinite (inject_Z 0)) f && float_le f (FFinite (inject_Z 1)).

Lemma unit_check_spec f : unit_check f = true ↔ in_unit_interval (PyFloat f).
Proof.
  unfold unit_check, in_unit_interval. simpl. split.
  - intros Hc. apply andb_prop in Hc as [H0 H1].
    destruct f as [|neg|q]; simpl in H0, H1; try discriminate.
    + destruct neg; discriminate.
    + exists q. repeat split; by apply Qle_bool_iff.
  - intros (q & [= ->] & H0 & H1).
    apply andb_true_intro. split; by apply Qle_bool_iff.
Qed.

Lemma positive_int_spec v :
  positive_int v ↔ ∃ n, int_value v = Some n ∧ (n <=? 0) = false.
Proof.
  unfold positive_int. split; intros (n & Hn & Hpos); exists n; split; auto; lia.
Qed.

(** The inputs that pass the three checks of [generate]. *)
Definition is_positive_int (v : pyval) : bool :=
  match int_value v with
  | Some n => 0 <? n
  | None => false
  end.

Definition valid_args (size t_pct : pyval) : bool :=
  is_positive_int size &&
  match t_pct with
  | PyFloat f => unit_check f
  | _ => false
  end.

Lemma is_positive_int_spec v : is_positive_int v = true ↔ positive_int v.
Proof.
  unfold is_positive_int, positive_int. split.
  - destruct (int_value v) as [n|]; [|done]. intros Hn. exists n. split; [done|lia].
  - intros (n & -> & Hn). lia.
Qed.

Lemma valid_args_spec size t_pct :
  valid_args size t_pct = true ↔
  positive_int size ∧ isinstance_float t_pct = true ∧ in_unit_interval t_pct.
Proof.
  unfold valid_args. rewrite andb_true_iff, is_positive_int_spec.
  destruct t_pct as [|b|z|f|s|l]; unfold isinstance_float; cbv iota beta;
    [ | | | rewrite unit_check_spec; tauto | | ];
    (split; [intros [_ ?] | intros (_ & ? & _)]; discriminate).
Qed.

Section ContinuousPeaksGeneratorFacts.
Context `{Numpy}.

Lemma generate_bad_size seed size t_pct g :
  ¬ positive_int size →
  generate seed size t_pct g =
    (inl (ValueError [Lit "Size must be a positive integer. Got "; Fmt size]), g).
Proof.
  intros Hbad. unfold generate, positive_int in *.
  destruct size as [|b|z|f|s|l]; try reflexivity.
  - destruct b; [|reflexivity]. exfalso. apply Hbad. exists 1. split; [done|lia].
  - unfold mbind, M_bind, py_le; simpl.
    unfold mret, M_ret. destruct (Qle_bool (inject_Z z) (inject_Z 0)) eqn:Hz; [done|].
    exfalso. apply Hbad. exists z. split; [done|].
    destruct (Z_lt_le_dec 0 z) as [|Hle]; [done|].
    assert (Qle_bool (inject_Z z) (inject_Z 0) = true); [|congruence].
    apply Qle_bool_iff. by rewrite <- Zle_Qle.
Qed.

Lemma generate_size_ok seed size t_pct g :
  positive_int size →
  generate seed size t_pct g =
    (if negb (isinstance_float t_pct)
     then raise (ValueError [Lit "Threshold percentage must be a float. Got ";
                             Fmt (PyStr (type_name t_pct))])
     else
       lower ← py_le (PyInt 0) t_pct;
       inside ← (if lower : bool then py_le t_pct (PyInt 1) else mret false);
       if negb inside
       then raise (ValueError [Lit "Threshold percentage must be between 0 and 1. Got ";
                               Fmt t_pct])
       else seed_global seed;; DiscreteOpt_init size (ContinuousPeaks t_pct)) g.
Proof.
  intros (n & Hn & Hpos). unfold generate.
  destruct size as [|b|z|f|s|l]; try discriminate.
  - destruct b; [reflexivity|]. simpl in Hn. injection Hn as <-. lia.
  - simpl in Hn. injection Hn as <-.
    unfold mbind at 1, M_bind at 1, py_le at 1; simpl.
    unfold mret at 1, M_ret at 1.
    destruct (Qle_bool (inject_Z z) (inject_Z 0)) eqn:Hz; [|done].
    apply Qle_bool_iff in Hz. rewrite <- Zle_Qle in Hz. lia.
Qed.

Lemma generate_not_float seed size t_pct g :
  positive_int size → isinstance_float t_pct = false →
  generate seed size t_pct g =
    (inl (ValueError [Lit "Threshold percentage must be a float. Got ";
                      Fmt (PyStr (type_name t_pct))]), g).
Proof.
  intros Hsize Hty. rewrite generate_size_ok by done. by rewrite Hty.
Qed.

Lemma generate_float seed size f g :
  positive_int size →
  generate seed size (PyFloat f) g =
    if unit_check f
    then (seed_global seed;; DiscreteOpt_init size (ContinuousPeaks (PyFloat f))) g
    else (inl (ValueError [Lit "Threshold percentage must be between 0 and 1. Got ";
                           Fmt (PyFloat f)]), g).
Proof.
  intros Hsize. rewrite generate_size_ok by done.
  unfold unit_check, mbind, M_bind, py_le, mret, M_ret.
  destruct f as [|[]|q]; simpl; try done.
  destruct (Qle_bool (inject_Z 0) q); simpl; [|done].
  by destruct (Qle_bool q (inject_Z 1)).
Qed.

Lemma DiscreteOpt_init_positive size fit (g : RandomState) :
  positive_int size →
  ∃ n, int_value size = Some n ∧
    DiscreteOpt_init size fit g =
      (inr {| length := n; fitness_fn := fit; maximize := true; max_val := 2 |}, g).
Proof.
  intros (n & Hn & Hpos). exists n. split; [done|].
  unfold DiscreteOpt_init. rewrite Hn.
  destruct (n <=? 0) eqn:Hle; [lia|done].
Qed.

Lemma generate_valid seed size f g g' :
  positive_int size → in_unit_interval (PyFloat f) → np_random_seed seed = inr g' →
  ∃ n, int_value size = Some n ∧
    generate seed size (PyFloat f) g =
      (inr {| length := n; fitness_fn := ContinuousPeaks (PyFloat f);
              maximize := true; max_val := 2 |}, g').
Proof.
  intros Hsize Hunit Hseed. rewrite generate_float by done.
  apply unit_check_spec in Hunit. rewrite Hunit.
  destruct (DiscreteOpt_init_positive size (ContinuousPeaks (PyFloat f)) g' Hsize)
    as (n & Hn & Hinit).
  exists n. split; [done|].
  unfold mbind, M_bind, seed_global. rewrite Hseed. simpl. exact Hinit.
Qed.

Lemma generate_invalid seed size t_pct :
  valid_args size t_pct = false →
  ∃ msg, ∀ g, generate seed size t_pct g = (inl (ValueError msg), g).
Proof.
  unfold valid_args. intros Hinv.
  destruct (is_positive_int size) eqn:Hsize.
  - apply is_positive_int_spec in Hsize.
    destruct t_pct as [|b|z|f|s|l];
      try (eexists; intros g; by apply generate_not_float).
    simpl in Hinv. eexists. intros g. rewrite generate_float by done.
    by rewrite Hinv.
  - assert (¬ positive_int size) as Hbad.
    { intros Hpos%is_positive_int_spec. congruence. }
    eexists. intros g. by apply generate_bad_size.
Qed.

Lemma generate_checked seed size t_pct g :
  valid_args size t_pct = true →
  generate seed size t_pct g =
    (seed_global seed;; DiscreteOpt_init size (ContinuousPeaks t_pct)) g.
Proof.
  unfold valid_args. intros [Hsize Ht]%andb_prop.
  apply is_positive_int_spec in Hsize.
  destruct t_pct as [|b|z|f|s|l]; try discriminate.
  rewrite generate_float by done. by rewrite Ht.
Qed.

Lemma seeded_construction_ignores_state seed size fit (g1 g2 : RandomState) :
  fst ((seed_global seed;; DiscreteOpt_init size fit) g1) =
    fst ((seed_global seed;; DiscreteOpt_init size fit) g2)
  ∧ ∀ p g', (seed_global seed;; DiscreteOpt_init size fit) g1 = (inr p, g') →
      np_random_seed seed = inr g'
      ∧ (seed_global seed;; DiscreteOpt_init size fit) g2 = (inr p, g').
Proof.
  unfold mbind, M_bind, seed_global.
  destruct (np_random_seed seed) as [e|g0] eqn:Hseed; simpl.
  - split; [done|]. intros p g' [=].
  - unfold DiscreteOpt_init. destruct (int_value size) as [n|]; simpl.
    + destruct (n <=? 0); simpl; [split; [done|intros p g' [=]]|].
      split; [done|]. by intros p g' [= <- <-].
    + split; [done|]. intros p g' [=].
Qed.

(** C3: [generate] raises [ValueError], leaving the random state untouched
    and building nothing, when [size] is not a positive integer or [t_pct]
    is not in [0,1]; on a positive integer size, a float [t_pct] in [0,1]
    and a seed numpy accepts it returns the [DiscreteOpt] whose length is
    [size] and whose fitness is [ContinuousPeaks] with exactly [t_pct];
    and nothing else is ever returned. *)
Theorem generate_validates_then_builds seed size t_pct (g : RandomState) :
  (¬ positive_int size ∨ ¬ in_unit_interval t_pct →
     ∃ msg, generate seed size t_pct g = (inl (ValueError msg), g))
  ∧ (positive_int size → isinstance_float t_pct = true → in_unit_interval t_pct →
     ∀ g', np_random_seed seed = inr g' →
     ∃ n, int_value size = Some n ∧
       generate seed size t_pct g =
         (inr {| length := n; fitness_fn := ContinuousPeaks t_pct;
                 maximize := true; max_val := 2 |}, g'))
  ∧ (∀ p g', generate seed size t_pct g = (inr p, g') →
     int_value size = Some (length p) ∧ 0 < length p
     ∧ fitness_fn p = ContinuousPeaks t_pct
     ∧ isinstance_float t_pct = true ∧ in_unit_interval t_pct
     ∧ np_random_seed seed = inr g').
Proof.
  split; [|split].
  - intros Hbad.
    destruct (generate_invalid seed size t_pct) as [msg Hmsg]; [|by exists msg].
    destruct (valid_args size t_pct) eqn:Hv; [|done].
    apply valid_args_spec in Hv. tauto.
  - intros Hsize Hfloat Hunit g' Hseed.
    destruct t_pct as [|b|z|f|s|l]; try discriminate.
    by apply generate_valid.
  - intros p g' Hgen.
    destruct (valid_args size t_pct) eqn:Hv.
    + rewrite generate_checked in Hgen by done.
      apply valid_args_spec in Hv as (Hsize & Hfloat & Hunit).
      destruct (seeded_construction_ignores_state seed size (ContinuousPeaks t_pct) g g)
        as [_ Hok].
      destruct (Hok p g' Hgen) as [Hseed _].
      destruct (DiscreteOpt_init_positive size (ContinuousPeaks t_pct) g' Hsize)
        as (n & Hn & Hinit).
      unfold mbind, M_bind, seed_global in Hgen. rewrite Hseed in Hgen. simpl in Hgen.
      rewrite Hinit in Hgen. injection Hgen as <-. simpl.
      destruct Hsize as (n' & Hn' & Hpos). rewrite Hn in Hn'. injection Hn' as <-.
      done.
    + destruct (generate_invalid seed size t_pct Hv) as [msg Hmsg].
      rewrite Hmsg in Hgen. discriminate.
Qed.

(** C8: a [t_pct] that is not a Python float makes [generate] raise
    [ValueError] whatever the other arguments are, the integers 0 and 1
    included; a call that returns a problem was given a float. *)
Theorem generate_rejects_non_float seed size t_pct (g : RandomState) :
  isinstance_float t_pct = false →
  (∃ msg, generate seed size t_pct g = (inl (ValueError msg), g))
  ∧ (∃ msg, generate seed size (PyInt 0) g = (inl (ValueError msg), g))
  ∧ (∃ msg, generate seed size (PyInt 1) g = (inl (ValueError msg), g))
  ∧ (∀ t p g', generate seed size t g = (inr p, g') → isinstance_float t = true).
Proof.
  assert (∀ t, isinstance_float t = false →
               ∃ msg, generate seed size t g = (inl (ValueError msg), g)) as Hrej.
  { intros t Ht. destruct (generate_invalid seed size t) as [msg Hmsg]; [|by exists msg].
    unfold valid_args. destruct t; try discriminate; apply andb_false_r. }
  intros Ht. repeat split; try (apply Hrej; done).
  intros t p g' Hgen. destruct (isinstance_float t) eqn:Hty; [done|].
  destruct (Hrej t Hty) as [msg Hmsg]. rewrite Hmsg in Hgen. discriminate.
Qed.

(** C5: two calls of [generate] with the same seed, size and [t_pct],
    started in any two random states, raise the same exception or return
    the same problem; when they return, both leave the random state that
    the seed determines, so every operation run afterwards sees the same
    problem and the same random state. *)
Theorem generate_reproducible seed size t_pct (g1 g2 : RandomState) :
  fst (generate seed size t_pct g1) = fst (generate seed size t_pct g2)
  ∧ (∀ p g', generate seed size t_pct g1 = (inr p, g') →
       generate seed size t_pct g2 = (inr p, g')
       ∧ np_random_seed seed = inr g'
       ∧ ∀ (A : Type) (op : DiscreteOpt → M RandomState A),
           (generate seed size t_pct ≫= op) g1 = (generate seed size t_pct ≫= op) g2).
Proof.
  destruct (valid_args size t_pct) eqn:Hv.
  - rewrite !generate_checked by done.
    destruct (seeded_construction_ignores_state seed size (ContinuousPeaks t_pct) g1 g2)
      as [Hfst Hok].
    split; [done|]. intros p g' Hgen.
    destruct (Hok p g' Hgen) as [Hseed Hgen2].
    repeat split; try done.
    intros A op. unfold mbind, M_bind.
    rewrite !generate_checked by done. by rewrite Hgen, Hgen2.
  - destruct (generate_invalid seed size t_pct Hv) as [msg Hmsg].
    rewrite !Hmsg. split; [done|]. intros p g' [=].
Qed.
End ContinuousPeaksGeneratorFacts.

Lemma generate_validates_then_builds_witness :
  positive_int (PyInt 20) ∧ in_unit_interval default_t_pct ∧
  ∃ n, int_value (PyInt 20) = Some n ∧
    generate (H := numpy_legacy) 42 (PyInt 20) default_t_pct 7 =
      (inr {| length := n; fitness_fn := ContinuousPeaks default_t_pct;
              maximize := true; max_val := 2 |}, 42).
Proof.
  assert (positive_int (PyInt 20)) as Hsize.
  { exists 20. split; [reflexivity | lia]. }
  assert (in_unit_interval default_t_pct) as Hunit.
  { eexists. split; [reflexivity|]. split; unfold Qle; simpl; lia. }
  split; [exact Hsize|]. split; [exact Hunit|].
  apply (proj1 (proj2 (generate_validates_then_builds (H := numpy_legacy)
                         42 (PyInt 20) default_t_pct 7)) Hsize eq_refl Hunit 42).
  reflexivity.
Defined.

Lemma generate_rejects_non_float_witness :
  isinstance_float (PyInt 1) = false ∧
  ∃ msg, generate (H := numpy_legacy) 42 (PyInt 20) (PyInt 1) 7 = (inl (ValueError msg), 7).
Proof.
  split; [reflexivity|].
  apply (proj1 (generate_rejects_non_float (H := numpy_legacy) 42 (PyInt 20) (PyInt 1) 7
                  eq_refl)).
Defined.

Lemma generate_reproducible_witness :
  generate (H := numpy_legacy) 42 (PyInt 20) default_t_pct 7 =
    (inr {| length := 20; fitness_fn := ContinuousPeaks default_t_pct;
            maximize := true; max_val := 2 |}, 42)
  ∧ generate (H := numpy_legacy) 42 (PyInt 20) default_t_pct 1234 =
    (inr {| length := 20; fitness_fn := ContinuousPeaks default_t_pct;
            maximize := true; max_val := 2 |}, 42).
Proof.
  split; [reflexivity|].
  apply (proj2 (generate_reproducible (H := numpy_legacy) 42 (PyInt 20) default_t_pct 7 1234)
           _ 42 eq_refl).
Defined.


(** ** The MIMIC runner *)

(** The toggle is available when the problem has an attribute
    [set_mimic_fast_mode] and that attribute is callable. *)
Definition toggle_available (h : pyheap) (v : pyval) : bool :=
  match lookup_attr h v "set_mimic_fast_mode" with
  | Some a => callable a
  | None => false
  end.

Lemma toggle_available_obj h v :
  toggle_available h v = true →
  ∃ l, v = PyObj l ∧ lookup_attr h v "set_mimic_fast_mode" = Some Method.
Proof.
  unfold toggle_available.
  destruct (lookup_attr h v "set_mimic_fast_mode") as [[u|]|] eqn:Hattr; try discriminate.
  intros _. destruct v; try discriminate. by eexists.
Qed.

Section MIMICRunnerFacts.
Context `{Environment}.
Variables (problem : pyval) (experiment_name : string) (seed : Z)
  (iteration_list : list pyval) (max_attempts : Z)
  (generate_curves use_fast_mimic : bool)
  (output_directory : option string) (kwargs : list (string * pyval)).

(** What [__init__] passes on to [super().__init__], and the calls it
    makes. *)
Local Abbreviation super_args :=
  (Build_RunnerBaseArgs problem experiment_name seed iteration_list max_attempts
     generate_curves output_directory kwargs).

Local Abbreviation super_init :=
  (external (SuperInit super_args) (base_init super_args)).

Local Abbreviation toggle_call l :=
  (external (MethodCall l "set_mimic_fast_mode" [PyBool use_fast_mimic])
     (call_method l "set_mimic_fast_mode" [PyBool use_fast_mimic])).

Local Abbreviation init pops keep :=
  (MIMICRunner_init problem experiment_name seed iteration_list pops keep
     max_attempts generate_curves use_fast_mimic output_directory kwargs).

Definition runner (b : base_state) (pops keep : list pyval) (fast : option bool) : MIMICRunner :=
  {| base := b; keep_percent_list := keep; population_sizes := pops;
     _use_fast_mimic := fast |}.

Lemma external_calls {A} e callee (w : world) :
  calls (@external _ A e callee w).2 = calls w ++ [e].
Proof. unfold external. by destruct (callee (heap w, out w)) as [r [h o]]. Qed.

Lemma init_super_raises pops keep w e w1 :
  super_init w = (inl e, w1) → init pops keep w = (inl e, w1).
Proof.
  intros Hsuper. unfold MIMICRunner_init, mbind, M_bind.
  by rewrite Hsuper.
Qed.

Lemma init_without_toggle pops keep w b w1 :
  super_init w = (inr b, w1) → toggle_available (heap w1) problem = false →
  init pops keep w = (inr (runner b pops keep None), w1).
Proof.
  intros Hsuper Htoggle. unfold MIMICRunner_init, mbind, M_bind.
  rewrite Hsuper.
  unfold hasattr, getattr, mbind, M_bind, get_state, mret, M_ret.
  unfold toggle_available in Htoggle.
  destruct (lookup_attr (heap w1) problem "set_mimic_fast_mode") as [[v|]|] eqn:Hattr;
    simpl; rewrite ?Hattr; done.
Qed.

Lemma init_with_toggle pops keep w b w1 :
  super_init w = (inr b, w1) → toggle_available (heap w1) problem = true →
  ∃ l, problem = PyObj l ∧
    init pops keep w =
      match toggle_call l w1 with
      | (inl e, w2) => (inl e, w2)
      | (inr _, w2) => (inr (runner b pops keep (Some use_fast_mimic)), w2)
      end.
Proof.
  intros Hsuper Htoggle.
  destruct (toggle_available_obj _ _ Htoggle) as (l & Hobj & Hattr).
  exists l. split; [done|].
  unfold MIMICRunner_init, mbind, M_bind.
  rewrite Hsuper.
  unfold call_attr, hasattr, getattr, mbind, M_bind, get_state, mret, M_ret.
  cbv beta iota. rewrite !Hattr. unfold callable. cbn. rewrite Hattr.
  cbv beta iota. rewrite Hobj. fold (toggle_call l).
  rewrite Hobj in Hattr. rewrite Hattr.
  by destruct (toggle_call l w1) as [[e|v] w2].
Qed.

(** The call [__init__] makes on the problem, if any. *)
Definition toggle_events (h : pyheap) : list event :=
  match problem with
  | PyObj l =>
      if toggle_available h problem
      then [MethodCall l "set_mimic_fast_mode" [PyBool use_fast_mimic]]
      else []
  | _ => []
  end.

Lemma toggle_events_available h l :
  problem = PyObj l → toggle_available h problem = true →
  toggle_events h = [MethodCall l "set_mimic_fast_mode" [PyBool use_fast_mimic]].
Proof. intros Hobj Hav. unfold toggle_events. by rewrite Hav, Hobj. Qed.

Lemma toggle_events_unavailable h :
  toggle_available h problem = false → toggle_events h = [].
Proof. intros Hav. unfold toggle_events. rewrite Hav. by destruct problem. Qed.

Lemma super_init_calls w : calls (super_init w).2 = calls w ++ [SuperInit super_args].
Proof. apply external_calls. Qed.

Lemma init_calls pops keep w b w1 :
  super_init w = (inr b, w1) →
  calls (init pops keep w).2 = calls w ++ SuperInit super_args :: toggle_events (heap w1).
Proof.
  intros Hsuper. pose proof (super_init_calls w) as Hcalls. rewrite Hsuper in Hcalls.
  simpl in Hcalls.
  destruct (toggle_available (heap w1) problem) eqn:Hav.
  - destruct (init_with_toggle pops keep w b w1 Hsuper Hav) as (l & Hobj & ->).
    rewrite (toggle_events_available _ l) by done.
    pose proof (external_calls (MethodCall l "set_mimic_fast_mode" [PyBool use_fast_mimic])
                  (call_method l "set_mimic_fast_mode" [PyBool use_fast_mimic]) w1) as Hc.
    fold (toggle_call l) in Hc.
    destruct (toggle_call l w1) as [[e|v] w2]; simpl in *;
      rewrite Hc, Hcalls, <- app_assoc; done.
  - rewrite (init_without_toggle pops keep w b w1) by done.
    rewrite toggle_events_unavailable by done. done.
Qed.

Lemma init_returns pops keep w b w1 r w2 :
  super_init w = (inr b, w1) → init pops keep w = (inr r, w2) →
  r = runner b pops keep
        (if toggle_available (heap w1) problem then Some use_fast_mimic else None).
Proof.
  intros Hsuper Hinit.
  destruct (toggle_available (heap w1) problem) eqn:Hav.
  - destruct (init_with_toggle pops keep w b w1 Hsuper Hav) as (l & Hobj & Hinit').
    rewrite Hinit' in Hinit.
    destruct (toggle_call l w1) as [[e|v] w3]; [done|]. by injection Hinit as <- <-.
  - rewrite (init_without_toggle pops keep w b w1) in Hinit by done.
    by injection Hinit as <- <-.
Qed.

Lemma init_stored pops keep w r w' :
  init pops keep w = (inr r, w') →
  population_sizes r = pops ∧ keep_percent_list r = keep.
Proof.
  intros Hinit. destruct (super_init w) as [[e|b] w1] eqn:Hsuper.
  - by rewrite (init_super_raises pops keep w e w1) in Hinit.
  - by rewrite (init_returns pops keep w b w1 r w' Hsuper Hinit).
Qed.

Lemma init_flag pops keep w b w1 r w2 :
  super_init w = (inr b, w1) → init pops keep w = (inr r, w2) →
  (_use_fast_mimic r = Some use_fast_mimic ↔ toggle_available (heap w1) problem = true)
  ∧ (_use_fast_mimic r = None ↔ toggle_available (heap w1) problem = false).
Proof.
  intros Hsuper Hinit. rewrite (init_returns pops keep w b w1 r w2 Hsuper Hinit).
  destruct (toggle_available (heap w1) problem); simpl; split; split; done.
Qed.

(** C1, as the code has it: construction neither checks nor clamps the two
    grids. A runner that is built holds [population_sizes] and
    [keep_percent_list] exactly as they were passed, and whether the
    construction returns or raises, and every effect it has, is the same
    for any other pair of grids. *)
Theorem init_stores_grids_unchecked pops keep w :
  (∀ r w', init pops keep w = (inr r, w') →
     population_sizes r = pops ∧ keep_percent_list r = keep)
  ∧ (∀ pops' keep',
       init pops' keep' w =
         match init pops keep w with
         | (inl e, w') => (inl e, w')
         | (inr r, w') => (inr (runner (base r) pops' keep' (_use_fast_mimic r)), w')
         end).
Proof.
  split; [intros r w'; apply init_stored|].
  intros pops' keep'. destruct (super_init w) as [[e|b] w1] eqn:Hsuper.
  - by rewrite !(init_super_raises _ _ w e w1).
  - destruct (toggle_available (heap w1) problem) eqn:Hav.
    + destruct (init_with_toggle pops keep w b w1 Hsuper Hav) as (l & Hobj & Hinit).
      destruct (init_with_toggle pops' keep' w b w1 Hsuper Hav) as (l' & Hobj' & Hinit').
      rewrite Hinit', Hinit. assert (l' = l) as -> by congruence.
      by destruct (toggle_call l w1) as [[e|v] w2].
    + by rewrite !(init_without_toggle _ _ w b w1).
Qed.

(** C2: once [super().__init__] has returned, the constructor calls
    [problem.set_mimic_fast_mode(use_fast_mimic)] exactly when the problem
    has a callable attribute of that name, and the runner it returns holds
    [_use_fast_mimic = use_fast_mimic] exactly in that case; without the
    attribute it makes no call, returns normally and holds [None]. *)
Theorem init_toggles_iff_available pops keep w b w1 :
  super_init w = (inr b, w1) →
  calls (init pops keep w).2 = calls w ++ SuperInit super_args :: toggle_events (heap w1)
  ∧ (toggle_available (heap w1) problem = true →
       ∃ l, problem = PyObj l
         ∧ toggle_events (heap w1) =
             [MethodCall l "set_mimic_fast_mode" [PyBool use_fast_mimic]]
         ∧ init pops keep w =
             match toggle_call l w1 with
             | (inl e, w2) => (inl e, w2)
             | (inr _, w2) => (inr (runner b pops keep (Some use_fast_mimic)), w2)
             end)
  ∧ (toggle_available (heap w1) problem = false →
       toggle_events (heap w1) = []
       ∧ init pops keep w = (inr (runner b pops keep None), w1))
  ∧ (∀ r w2, init pops keep w = (inr r, w2) →
       (_use_fast_mimic r = Some use_fast_mimic ↔ toggle_available (heap w1) problem = true)
       ∧ (_use_fast_mimic r = None ↔ toggle_available (heap w1) problem = false)).
Proof.
  intros Hsuper. split; [by apply (init_calls pops keep w b w1)|]. split; [|split].
  - intros Hav.
    destruct (init_with_toggle pops keep w b w1 Hsuper Hav) as (l & Hobj & Hinit).
    exists l. split; [done|]. split; [by apply toggle_events_available|done].
  - intros Hav. split; [by apply toggle_events_unavailable|].
    by apply init_without_toggle.
  - intros r w2 Hinit. by apply (init_flag pops keep w b w1 r w2).
Qed.

(** C9: what construction does to the caller's problem. With the toggle
    available the constructor calls it with the flag, and the heap and the
    outside it leaves are those the call left; without it they are those
    [super().__init__] left. The constructor writes nothing else, and in a
    construction followed by [run] the toggle call comes before the
    experiment. *)
Theorem init_only_toggles_problem pops keep w b w1 :
  super_init w = (inr b, w1) →
  (toggle_available (heap w1) problem = true →
     ∃ l, problem = PyObj l
       ∧ (heap (init pops keep w).2, out (init pops keep w).2) =
           (call_method l "set_mimic_fast_mode" [PyBool use_fast_mimic] (heap w1, out w1)).2
       ∧ calls (init pops keep w).2 =
           calls w ++ [SuperInit super_args;
                       MethodCall l "set_mimic_fast_mode" [PyBool use_fast_mimic]])
  ∧ (toggle_available (heap w1) problem = false →
       (init pops keep w).2 = w1 ∧ calls w1 = calls w ++ [SuperInit super_args])
  ∧ (∀ r w2, init pops keep w = (inr r, w2) →
       calls (run r w2).2 =
         calls w ++ SuperInit super_args :: toggle_events (heap w1)
                 ++ [RunExperiment mimic (mimic_grid r)]).
Proof.
  intros Hsuper.
  pose proof (super_init_calls w) as Hcalls. rewrite Hsuper in Hcalls. simpl in Hcalls.
  split; [|split].
  - intros Hav.
    destruct (init_with_toggle pops keep w b w1 Hsuper Hav) as (l & Hobj & Hinit).
    exists l. split; [done|]. split.
    + rewrite Hinit. unfold toggle_call, external.
      destruct (call_method l "set_mimic_fast_mode" [PyBool use_fast_mimic] (heap w1, out w1))
        as [[e|v] [h o]]; done.
    + rewrite (init_calls pops keep w b w1) by done.
      by rewrite (toggle_events_available _ l).
  - intros Hav. by rewrite (init_without_toggle pops keep w b w1).
  - intros r w2 Hinit.
    pose proof (init_calls pops keep w b w1 Hsuper) as Hc. rewrite Hinit in Hc.
    simpl in Hc. unfold run. unfold mbind, M_bind.
    pose proof (external_calls (RunExperiment mimic (mimic_grid r))
                  (base_run_experiment_ mimic (mimic_grid r) (base r)) w2) as Hr.
    destruct (external (RunExperiment mimic (mimic_grid r))
                (base_run_experiment_ mimic (mimic_grid r) (base r)) w2)
      as [[e|[frames b']] w3]; simpl in *; rewrite Hr, Hc, <- app_assoc; done.
Qed.

Lemma setup_calls r w b w' :
  external SuperSetup (base_setup (base r)) w = (inr b, w') →
  calls (_setup r w).2 =
    calls w ++ SuperSetup ::
      match _use_fast_mimic r with
      | Some flag => [LogCurrentArgument "use_fast_mimic" (PyBool flag)]
      | None => []
      end.
Proof.
  intros Hsetup.
  pose proof (external_calls SuperSetup (base_setup (base r)) w) as Hc.
  rewrite Hsetup in Hc. simpl in Hc.
  unfold _setup, mbind, M_bind. rewrite Hsetup. simpl.
  destruct (_use_fast_mimic r) as [flag|]; simpl; [|done].
  pose proof (external_calls (LogCurrentArgument "use_fast_mimic" (PyBool flag))
                (base_log_current_argument "use_fast_mimic" (PyBool flag) b) w') as Hl.
  destruct (external (LogCurrentArgument "use_fast_mimic" (PyBool flag))
              (base_log_current_argument "use_fast_mimic" (PyBool flag) b) w')
    as [[e|b'] w'']; simpl in *; rewrite Hl, Hc, <- app_assoc; done.
Qed.

Lemma setup_without_flag r w b w' :
  external SuperSetup (base_setup (base r)) w = (inr b, w') →
  _use_fast_mimic r = None → _setup r w = (inr (with_base r b), w').
Proof.
  intros Hsetup Hnone. unfold _setup, mbind, M_bind. rewrite Hsetup. simpl.
  by rewrite Hnone.
Qed.

(** C10: for a runner as the constructor built it, and once
    [super()._setup()] has returned, [_setup] logs [use_fast_mimic] exactly
    when [_use_fast_mimic] is not [None], which is exactly when the problem
    had a callable [set_mimic_fast_mode] at construction; without the toggle
    [_setup] does what [super()._setup()] does and nothing more. *)
Theorem setup_logs_iff_toggled pops keep w0 b0 wb r w1 w b w' :
  super_init w0 = (inr b0, wb) →
  init pops keep w0 = (inr r, w1) →
  external SuperSetup (base_setup (base r)) w = (inr b, w') →
  calls (_setup r w).2 =
    calls w ++ SuperSetup ::
      (if toggle_available (heap wb) problem
       then [LogCurrentArgument "use_fast_mimic" (PyBool use_fast_mimic)]
       else [])
  ∧ (_use_fast_mimic r ≠ None ↔ toggle_available (heap wb) problem = true)
  ∧ (toggle_available (heap wb) problem = false →
       _setup r w = (inr (with_base r b), w')).
Proof.
  intros Hsuper Hinit Hsetup.
  destruct (init_flag pops keep w0 b0 wb r w1 Hsuper Hinit) as [Hsome Hnone].
  rewrite (setup_calls r w b w') by done.
  destruct (toggle_available (heap wb) problem) eqn:Hav.
  - rewrite (proj2 Hsome eq_refl). split; [done|]. split; [|done].
    split; done.
  - pose proof (proj2 Hnone eq_refl) as Hr. rewrite Hr. split; [done|]. split.
    + split; [|done]. intros Hne. by destruct Hne.
    + intros _. by apply setup_without_flag.
Qed.

(** C7: [run] makes one call, [run_experiment_] with the algorithm
    [mimic], the constructor's [population_sizes] as the [pop_size] grid and
    its [keep_percent_list] as the [keep_pct] grid, and returns the pair of
    frames of that call as it is (or raises what the call raised). *)
Theorem run_delegates_to_run_experiment pops keep w0 r w1 w :
  init pops keep w0 = (inr r, w1) →
  run r w =
    match base_run_experiment_ mimic
            [("pop_size"%string, ("Population Size"%string, pops));
             ("keep_pct"%string, ("Keep Percent"%string, keep))]
            (base r) (heap w, out w) with
    | (result, (h, o)) =>
        let w' :=
          {| heap := h; out := o;
             calls := calls w ++
               [RunExperiment mimic
                  [("pop_size"%string, ("Population Size"%string, pops));
                   ("keep_pct"%string, ("Keep Percent"%string, keep))]] |} in
        match result with
        | inl e => (inl e, w')
        | inr (frames, b) => (inr (frames, with_base r b), w')
        end
    end.
Proof.
  intros Hinit.
  destruct (init_stored pops keep w0 r w1 Hinit) as [Hpops Hkeep].
  unfold run, mimic_grid, mbind, M_bind, external. rewrite Hpops, Hkeep.
  destruct (base_run_experiment_ mimic _ (base r) (heap w, out w)) as [[e|[frames b]] [h o]];
    done.
Qed.
End MIMICRunnerFacts.

(** ** The runner on the sample heap *)

Definition with_toggle : pyval := PyObj 1%positive.
Definition without_toggle : pyval := PyObj 2%positive.
Definition half : pyval := PyFloat (FFinite (1 # 2)).
Definition three_halves : pyval := PyFloat (FFinite (3 # 2)).

Lemma sample_toggle_available : toggle_available sample_heap with_toggle = true.
Proof. vm_compute. reflexivity. Qed.

Lemma sample_toggle_unavailable : toggle_available sample_heap without_toggle = false.
Proof. vm_compute. reflexivity. Qed.

Lemma sample_init_with_toggle name seed its attempts curves flag dir kw pops keep :
  MIMICRunner_init (H := plain_environment) with_toggle name seed its pops keep
    attempts curves flag dir kw sample_world =
  (inr (runner (H := plain_environment)
          (Build_RunnerBaseArgs with_toggle name seed its attempts curves dir kw, [])
          pops keep (Some flag)),
   @Build_world plain_environment (store_flag 1%positive (PyBool flag) sample_heap) tt
     [SuperInit (Build_RunnerBaseArgs with_toggle name seed its attempts curves dir kw);
      MethodCall 1%positive "set_mimic_fast_mode" [PyBool flag]]).
Proof.
  edestruct (init_with_toggle (H := plain_environment) with_toggle name seed its attempts
               curves flag dir kw pops keep sample_world) as (l & Hobj & ->);
    [reflexivity | exact sample_toggle_available |].
  injection Hobj as <-. reflexivity.
Qed.

Lemma sample_init_without_toggle name seed its attempts curves flag dir kw pops keep :
  MIMICRunner_init (H := plain_environment) without_toggle name seed its pops keep
    attempts curves flag dir kw sample_world =
  (inr (runner (H := plain_environment)
          (Build_RunnerBaseArgs without_toggle name seed its attempts curves dir kw, [])
          pops keep None),
   @Build_world plain_environment sample_heap tt
     [SuperInit (Build_RunnerBaseArgs without_toggle name seed its attempts curves dir kw)]).
Proof.
  apply (init_without_toggle (H := plain_environment));
    [reflexivity | exact sample_toggle_unavailable].
Qed.

Lemma store_flag_other (l l' : loc) flag (h : pyheap) :
  l ≠ l' → store_flag l flag h !! l' = h !! l'.
Proof.
  intros Hne. unfold store_flag. destruct (h !! l); [|done].
  by rewrite lookup_insert_ne.
Qed.

(** The flag reaches the caller's object: after construction the problem
    at location 1 holds it, and the problem at location 2 is as it was. *)
Lemma sample_init_mutates_problem flag :
  lookup_attr (store_flag 1%positive (PyBool flag) sample_heap) with_toggle "mimic_fast_mode"
    = Some (Field (PyBool flag))
  ∧ lookup_attr sample_heap with_toggle "mimic_fast_mode" = None
  ∧ store_flag 1%positive (PyBool flag) sample_heap !! 2%positive = sample_heap !! 2%positive.
Proof.
  split; [by vm_compute|]. split; [by vm_compute|].
  by apply store_flag_other.
Qed.

(** Out-of-range grids pass construction: a population size of 0 and a
    keep percentage of 1.5 are accepted and stored. *)
Lemma init_accepts_out_of_range_grids :
  ¬ in_unit_interval three_halves
  ∧ ¬ positive_int (PyInt 0)
  ∧ ∃ r w',
      MIMICRunner_init (H := plain_environment) with_toggle "exp" 1 [PyInt 1; PyInt 2]
        [PyInt 0] [three_halves] 5 true true None [] sample_world = (inr r, w')
      ∧ population_sizes r = [PyInt 0]
      ∧ keep_percent_list r = [three_halves].
Proof.
  split; [|split].
  - intros (q & [= <-] & _ & Hle). unfold Qle in Hle. simpl in Hle. lia.
  - intros (n & [= <-] & Hpos). lia.
  - eexists _, _. split; [apply sample_init_with_toggle|]. split; reflexivity.
Qed.

Lemma init_stores_grids_unchecked_witness :
  ∃ r w',
    MIMICRunner_init (H := plain_environment) without_toggle "exp" 1 [PyInt 1; PyInt 2]
      [PyInt 20] [half] 5 true true None [] sample_world = (inr r, w')
    ∧ population_sizes r = [PyInt 20] ∧ keep_percent_list r = [half].
Proof.
  eexists _, _. split; [apply sample_init_without_toggle|].
  apply (proj1 (init_stores_grids_unchecked (H := plain_environment) without_toggle "exp" 1
                  [PyInt 1; PyInt 2] 5 true true None [] [PyInt 20] [half] sample_world)
           _ _ (sample_init_without_toggle "exp" 1 [PyInt 1; PyInt 2] 5 true true None []
                  [PyInt 20] [half])).
Defined.

Lemma init_toggles_iff_available_witness :
  calls (MIMICRunner_init (H := plain_environment) with_toggle "exp" 1 [PyInt 1; PyInt 2]
           [PyInt 20] [half] 5 true false None [] sample_world).2 =
    [SuperInit (Build_RunnerBaseArgs with_toggle "exp" 1 [PyInt 1; PyInt 2] 5 true None []);
     MethodCall 1%positive "set_mimic_fast_mode" [PyBool false]].
Proof.
  rewrite (proj1 (init_toggles_iff_available (H := plain_environment) with_toggle "exp" 1
                    [PyInt 1; PyInt 2] 5 true false None [] [PyInt 20] [half] sample_world
                    (Build_RunnerBaseArgs with_toggle "exp" 1 [PyInt 1; PyInt 2] 5 true
                       None [], [])
                    (@Build_world plain_environment sample_heap tt
                       [SuperInit (Build_RunnerBaseArgs with_toggle "exp" 1
                                     [PyInt 1; PyInt 2] 5 true None [])])
                    eq_refl)).
  cbn [heap].
  rewrite (toggle_events_available with_toggle false sample_heap 1%positive eq_refl
             sample_toggle_available).
  reflexivity.
Defined.

Lemma init_only_toggles_problem_witness :
  (∃ l, with_toggle = PyObj l
     ∧ (heap (MIMICRunner_init (H := plain_environment) with_toggle "exp" 1
                [PyInt 1; PyInt 2] [PyInt 20] [half] 5 true false None [] sample_world).2,
        out (MIMICRunner_init (H := plain_environment) with_toggle "exp" 1
               [PyInt 1; PyInt 2] [PyInt 20] [half] 5 true false None [] sample_world).2) =
         (call_method (Environment := plain_environment) l "set_mimic_fast_mode"
            [PyBool false] (sample_heap, tt)).2
     ∧ calls (MIMICRunner_init (H := plain_environment) with_toggle "exp" 1
                [PyInt 1; PyInt 2] [PyInt 20] [half] 5 true false None [] sample_world).2 =
         [SuperInit (Build_RunnerBaseArgs with_toggle "exp" 1 [PyInt 1; PyInt 2] 5 true
                       None []);
          MethodCall l "set_mimic_fast_mode" [PyBool false]])
  ∧ (MIMICRunner_init (H := plain_environment) without_toggle "exp" 1 [PyInt 1; PyInt 2]
       [PyInt 20] [half] 5 true false None [] sample_world).2 =
      @Build_world plain_environment sample_heap tt
        [SuperInit (Build_RunnerBaseArgs without_toggle "exp" 1 [PyInt 1; PyInt 2] 5 true
                      None [])].
Proof.
  split.
  - apply (proj1 (init_only_toggles_problem (H := plain_environment) with_toggle
                    "exp" 1 [PyInt 1; PyInt 2] 5 true false None [] [PyInt 20] [half]
                    sample_world
                    (Build_RunnerBaseArgs with_toggle "exp" 1 [PyInt 1; PyInt 2] 5 true
                       None [], [])
                    (@Build_world plain_environment sample_heap tt
                       [SuperInit (Build_RunnerBaseArgs with_toggle "exp" 1
                                     [PyInt 1; PyInt 2] 5 true None [])])
                    eq_refl)).
    exact sample_toggle_available.
  - apply (proj1 (proj2 (init_only_toggles_problem (H := plain_environment) without_toggle
                           "exp" 1 [PyInt 1; PyInt 2] 5 true false None [] [PyInt 20] [half]
                           sample_world _ _ eq_refl))).
    exact sample_toggle_unavailable.
Defined.

Lemma setup_logs_iff_toggled_witness :
  ∃ r w1,
    MIMICRunner_init (H := plain_environment) with_toggle "exp" 1 [PyInt 1; PyInt 2]
      [PyInt 20] [half] 5 true false None [] sample_world = (inr r, w1)
    ∧ calls (_setup r w1).2 =
        calls w1 ++ [SuperSetup; LogCurrentArgument "use_fast_mimic" (PyBool false)].
Proof.
  eexists _, _. split; [apply sample_init_with_toggle|].
  rewrite (proj1 (setup_logs_iff_toggled (H := plain_environment) with_toggle "exp" 1
                    [PyInt 1; PyInt 2] 5 true false None [] [PyInt 20] [half] sample_world
                    (Build_RunnerBaseArgs with_toggle "exp" 1 [PyInt 1; PyInt 2] 5 true
                       None [], [])
                    (@Build_world plain_environment sample_heap tt
                       [SuperInit (Build_RunnerBaseArgs with_toggle "exp" 1
                                     [PyInt 1; PyInt 2] 5 true None [])])
                    _ _ _ _ _ eq_refl
                    (sample_init_with_toggle "exp" 1 [PyInt 1; PyInt 2] 5 true false None []
                       [PyInt 20] [half])
                    eq_refl)).
  cbn [heap]. rewrite sample_toggle_available. reflexivity.
Defined.

Lemma run_delegates_to_run_experiment_witness :
  ∃ r w1,
    MIMICRunner_init (H := plain_environment) without_toggle "exp" 1 [PyInt 1; PyInt 2]
      [PyInt 20] [half] 5 true true None [] sample_world = (inr r, w1)
    ∧ (run r w1).1 =
        inr ((Some [("Population Size"%string, [PyInt 20]); ("Keep Percent"%string, [half])],
              None), r).
Proof.
  eexists _, _. split; [apply sample_init_without_toggle|].
  rewrite (run_delegates_to_run_experiment (H := plain_environment) without_toggle "exp" 1
             [PyInt 1; PyInt 2] 5 true true None [] [PyInt 20] [half] sample_world _ _ _
             (sample_init_without_toggle "exp" 1 [PyInt 1; PyInt 2] 5 true true None []
                [PyInt 20] [half])).
  reflexivity.
Defined.


(** ** The operators of a discrete problem keep states in the encoding *)

(** A problem is valid when its length and its alphabet are not empty and,
    if it is permutation-structured, its alphabet is its set of positions. *)
Definition valid_problem (p : DiscreteOpt) : Prop :=
  0 < length p ∧ 0 < max_val p ∧ (is_tsp p = true → max_val p = length p).

Definition in_alphabet (p : DiscreteOpt) (v : Z) : Prop := 0 ≤ v < max_val p.

Definition valid_state (p : DiscreteOpt) (s : list Z) : Prop :=
  List.length s = state_length p ∧ Forall (in_alphabet p) s.

Ltac run_R :=
  cbn [draw_each shuffle mutate_each sample_edges sample_population] in *;
  unfold mbind, R_bind, mret, R_ret in *;
  cbn [fst snd] in *.

Lemma randint_range n g : 0 < n → 0 ≤ (randint n g).1 < n.
Proof. intros Hn. unfold randint, next_raw. run_R. simpl. by apply Z.mod_pos_bound. Qed.

Lemma draw_each_valid n k g :
  0 < k →
  List.length (draw_each n k g).1 = n ∧ Forall (λ v, 0 ≤ v < k) (draw_each n k g).1.
Proof.
  intros Hk. revert g. induction n as [|n IH]; intros g; [by split|].
  run_R. pose proof (randint_range k g Hk) as Hv.
  destruct (randint k g) as [v g1]. specialize (IH g1).
  destruct (draw_each n k g1) as [vs g2]. simpl in *.
  destruct IH as [Hlen Hall]. split; [simpl; lia|by constructor].
Qed.

Lemma swap_length s i j : List.length (swap s i j) = List.length s.
Proof.
  unfold swap. destruct (s !! i), (s !! j); try done.
  by rewrite !length_insert.
Qed.

Lemma swap_Forall (P : Z → Prop) s i j : Forall P s → Forall P (swap s i j).
Proof.
  intros Hall. unfold swap.
  destruct (s !! i) as [a|] eqn:Hi; [|done].
  destruct (s !! j) as [b|] eqn:Hj; [|done].
  apply Forall_insert; [apply Forall_insert; [done|]|].
  - by eapply Forall_lookup_1.
  - by eapply Forall_lookup_1.
Qed.

Lemma shuffle_valid (P : Z → Prop) i s g :
  List.length (shuffle i s g).1 = List.length s
  ∧ (Forall P s → Forall P (shuffle i s g).1).
Proof.
  revert s g. induction i as [|i IH]; intros s g; [by split|].
  run_R. destruct (randint (Z.of_nat (S i)) g) as [j g1].
  destruct (IH (swap s (S i) (Z.to_nat j)) g1) as [Hlen Hall].
  split; [by rewrite Hlen, swap_length|].
  intros Hs. by apply Hall, swap_Forall.
Qed.

Lemma positions_in_range n :
  Forall (λ v, 0 ≤ v < Z.of_nat n) (Z.of_nat <$> seq 0 n).
Proof.
  apply Forall_fmap, Forall_forall. intros i Hi%elem_of_seq. simpl. lia.
Qed.

Lemma random_state_valid p g : valid_problem p → valid_state p (random_state p g).1.
Proof.
  intros (Hlen & Hmax & Htsp). unfold random_state, valid_state, in_alphabet.
  destruct (is_tsp p) eqn:Hkind.
  - destruct (shuffle_valid (λ v, 0 ≤ v < max_val p) (pred (state_length p))
                (Z.of_nat <$> seq 0 (state_length p)) g) as [Hl Hall].
    split; [by rewrite Hl, length_fmap, length_seq|].
    apply Hall. rewrite (Htsp eq_refl).
    replace (length p) with (Z.of_nat (state_length p)) by (unfold state_length; lia).
    apply positions_in_range.
  - by apply draw_each_valid.
Qed.

Lemma random_neighbor_valid p s g :
  valid_problem p → valid_state p s → valid_state p (random_neighbor p s g).1.
Proof.
  intros (Hlen & Hmax & Htsp) [Hl Hall]. unfold random_neighbor, valid_state.
  destruct (is_tsp p).
  - run_R. destruct (randint (length p) g) as [i g1].
    destruct (randint (length p) g1) as [j g2]. simpl.
    split; [by rewrite swap_length|by apply swap_Forall].
  - run_R. destruct (randint (length p) g) as [i g1].
    destruct (randint (max_val p - 1) g1) as [shift g2]. simpl.
    split; [by rewrite length_insert|].
    apply Forall_insert; [done|]. unfold in_alphabet. by apply Z.mod_pos_bound.
Qed.

Lemma mutate_each_valid k prob s g :
  0 < k →
  List.length (mutate_each k prob s g).1 = List.length s
  ∧ (Forall (λ v, 0 ≤ v < k) s → Forall (λ v, 0 ≤ v < k) (mutate_each k prob s g).1).
Proof.
  intros Hk. revert g. induction s as [|v rest IH]; intros g; [by split|].
  run_R. destruct (uniform g) as [u g1].
  assert (∃ v' g2, (if negb (Qle_bool prob u) then randint k else λ g', (v, g')) g1
                   = (v', g2) ∧ (0 ≤ v < k → 0 ≤ v' < k)) as (v' & g2 & -> & Hv').
  { destruct (negb (Qle_bool prob u)).
    - pose proof (randint_range k g1 Hk) as Hr.
      destruct (randint k g1) as [v' g2]. by exists v', g2.
    - by exists v, g1. }
  destruct (IH g2) as [Hlen Hall].
  destruct (mutate_each k prob rest g2) as [rest' g3]. simpl in *.
  split; [simpl; lia|].
  intros Hs. inversion Hs; subst. constructor; auto.
Qed.

Lemma mutate_valid p s prob g :
  valid_problem p → valid_state p s → valid_state p (mutate p s prob g).1.
Proof.
  intros (Hlen & Hmax & Htsp) [Hl Hall]. unfold mutate, valid_state, in_alphabet.
  destruct (mutate_each_valid (max_val p) prob s g Hmax) as [Hl' Hall'].
  split; [by rewrite Hl'|by apply Hall'].
Qed.

Lemma pick_lt table t : table ≠ [] → (pick table t < List.length table)%nat.
Proof.
  revert t. induction table as [|w rest IH]; intros t Hne; [done|].
  destruct rest as [|w' rest']; [simpl; lia|].
  change (pick (w :: w' :: rest') t)
    with (if negb (Qle_bool w t) then O else S (pick (w' :: rest') (t - w)%Q)).
  destruct (negb (Qle_bool w t)); [simpl; lia|].
  specialize (IH (t - w)%Q ltac:(done)). simpl in *. lia.
Qed.

Lemma alphabet_length p : List.length (alphabet p) = Z.to_nat (max_val p).
Proof. unfold alphabet. by rewrite length_fmap, length_seq. Qed.

Lemma draw_from_range p table g :
  0 < max_val p → List.length table = Z.to_nat (max_val p) →
  in_alphabet p (draw_from table g).1.
Proof.
  intros Hmax Hlen. unfold draw_from, in_alphabet. run_R.
  destruct (uniform g) as [u g1]. simpl.
  assert (table ≠ []) as Hne by (intros ->; simpl in Hlen; lia).
  pose proof (pick_lt table (u * total table)%Q Hne). lia.
Qed.

Lemma marginal_table_length p kept eps i :
  List.length (marginal_table p kept eps i) = Z.to_nat (max_val p).
Proof. unfold marginal_table. by rewrite length_fmap, alphabet_length. Qed.

Lemma conditional_table_length p kept eps child parent pv :
  List.length (conditional_table p kept eps child parent pv) = Z.to_nat (max_val p).
Proof. unfold conditional_table. by rewrite length_fmap, alphabet_length. Qed.

Lemma sample_edges_valid p kept eps es s g :
  0 < max_val p → valid_state p s → valid_state p (sample_edges p kept eps es s g).1.
Proof.
  intros Hmax. revert s g. induction es as [|[parent child] rest IH]; intros s g Hs; [done|].
  run_R.
  pose proof (draw_from_range p
                (conditional_table p kept eps child parent (value_at s parent)) g Hmax
                (conditional_table_length _ _ _ _ _ _)) as Hv.
  destruct (draw_from (conditional_table p kept eps child parent (value_at s parent)) g)
    as [v g1]. simpl in Hv.
  apply IH. destruct Hs as [Hl Hall].
  split; [by rewrite length_insert|by apply Forall_insert].
Qed.

Lemma sample_state_valid p tree kept eps g :
  valid_problem p → valid_state p (sample_state p tree kept eps g).1.
Proof.
  intros (Hlen & Hmax & Htsp). unfold sample_state. run_R.
  pose proof (draw_from_range p (marginal_table p kept eps (root tree)) g Hmax
                (marginal_table_length _ _ _ _)) as Hv.
  destruct (draw_from (marginal_table p kept eps (root tree)) g) as [v g1]. simpl in Hv.
  apply sample_edges_valid; [done|].
  split; [by rewrite length_insert, length_replicate|].
  apply Forall_insert; [|done]. apply Forall_replicate. unfold in_alphabet. lia.
Qed.

Lemma sample_population_valid p tree kept eps n g :
  valid_problem p →
  List.length (sample_population p tree kept eps n g).1 = n
  ∧ Forall (valid_state p) (sample_population p tree kept eps n g).1.
Proof.
  intros Hp. revert g. induction n as [|n IH]; intros g; [by split|].
  run_R. pose proof (sample_state_valid p tree kept eps g Hp) as Hs.
  destruct (sample_state p tree kept eps g) as [s g1]. specialize (IH g1).
  destruct (sample_population p tree kept eps n g1) as [rest g2]. simpl in *.
  destruct IH as [Hl Hall]. split; [simpl; lia|by constructor].
Qed.

(** C6: for a valid discrete problem, every state that [random_state],
    [random_neighbor], [mutate] and the sampling of MIMIC produce has the
    declared length and every value in the declared alphabet, and so has
    every state a search can come to hold by any sequence of these
    operators. *)
Theorem operators_keep_encoding p :
  valid_problem p →
  (∀ g, valid_state p (random_state p g).1)
  ∧ (∀ s g, valid_state p s → valid_state p (random_neighbor p s g).1)
  ∧ (∀ s mutation_prob g,
       valid_state p s → valid_state p (mutate p s mutation_prob g).1)
  ∧ (∀ tree kept pseudocount g,
       valid_state p (sample_state p tree kept pseudocount g).1)
  ∧ (∀ tree kept pseudocount pop_size g,
       List.length (sample_population p tree kept pseudocount pop_size g).1 = pop_size
       ∧ Forall (valid_state p) (sample_population p tree kept pseudocount pop_size g).1)
  ∧ (∀ s, produced p s → valid_state p s).
Proof.
  intros Hp. split; [|split; [|split; [|split; [|split]]]].
  - intros g. by apply random_state_valid.
  - intros s g Hs. by apply random_neighbor_valid.
  - intros s prob g Hs. by apply mutate_valid.
  - intros tree kept eps g. by apply sample_state_valid.
  - intros tree kept eps n g. by apply sample_population_valid.
  - intros s Hs. induction Hs as [g|s g Hs IH|s prob g Hs IH|tree kept eps g].
    + by apply random_state_valid.
    + by apply random_neighbor_valid.
    + by apply mutate_valid.
    + by apply sample_state_valid.
Qed.

Lemma operators_keep_encoding_witness :
  valid_problem five_cities
  ∧ valid_state five_cities (random_state five_cities sample_rng).1
  ∧ valid_state five_cities
      (random_neighbor five_cities (random_state five_cities sample_rng).1 sample_rng).1.
Proof.
  assert (valid_problem five_cities) as Hp.
  { split; [reflexivity|]. split; [reflexivity|]. intros _. reflexivity. }
  split; [exact Hp|].
  pose proof (operators_keep_encoding five_cities Hp) as (Hstate & Hneighbor & _).
  split; [apply Hstate|]. apply Hneighbor, Hstate.
Defined.

(** * Further properties of the generator *)

Lemma unit_check_not_finite f :
  (f = FNan ∨ ∃ negative, f = FInf negative) → unit_check f = false.
Proof. intros [->|[[] ->]]; reflexivity. Qed.

Section ContinuousPeaksGeneratorOutcomes.
Context `{Numpy}.

Lemma generate_seed_step seed size t_pct g :
  valid_args size t_pct = true →
  generate seed size t_pct g =
    match np_random_seed seed with
    | inl e => (inl e, g)
    | inr g' =>
        (inr {| length := default 0 (int_value size); fitness_fn := ContinuousPeaks t_pct;
                maximize := true; max_val := 2 |}, g')
    end.
Proof.
  intros Hv. rewrite generate_checked by done.
  apply valid_args_spec in Hv as (Hsize & _ & _).
  unfold mbind, M_bind, seed_global.
  destruct (np_random_seed seed) as [e|g'] eqn:Hseed; [done|]. simpl.
  destruct (DiscreteOpt_init_positive size (ContinuousPeaks t_pct) g' Hsize)
    as (n & Hn & ->).
  by rewrite Hn.
Qed.

(** The checks of [generate] in the order the code makes them: a size that
    is not a positive integer is reported first, whatever [t_pct] and the
    seed are; then a [t_pct] that is not a float, by the name of its type;
    then a float outside [0,1], a NaN or an infinity, by its value. Each
    message carries what the code interpolates into it. *)
Theorem generate_check_order seed size t_pct (g : RandomState) :
  (¬ positive_int size →
     generate seed size t_pct g =
       (inl (ValueError [Lit "Size must be a positive integer. Got "; Fmt size]), g))
  ∧ (positive_int size → isinstance_float t_pct = false →
     generate seed size t_pct g =
       (inl (ValueError [Lit "Threshold percentage must be a float. Got ";
                         Fmt (PyStr (type_name t_pct))]), g))
  ∧ (∀ f, positive_int size → t_pct = PyFloat f →
       (¬ in_unit_interval t_pct ∨ f = FNan ∨ ∃ negative, f = FInf negative) →
       generate seed size t_pct g =
         (inl (ValueError [Lit "Threshold percentage must be between 0 and 1. Got ";
                           Fmt t_pct]), g)).
Proof.
  split; [|split].
  - by apply generate_bad_size.
  - by apply generate_not_float.
  - intros f Hsize -> Hout. rewrite generate_float by done.
    destruct (unit_check f) eqn:Hc; [|done].
    exfalso. destruct Hout as [Hout|Hout].
    + by apply Hout, unit_check_spec.
    + rewrite (unit_check_not_finite f Hout) in Hc. discriminate.
Qed.


Lemma generate_outcome_ignores_state seed size t_pct (g1 g2 : RandomState) :
  (generate seed size t_pct g1).1 = (generate seed size t_pct g2).1.
Proof.
  destruct (valid_args size t_pct) eqn:Hv.
  - rewrite !generate_seed_step by done. by destruct (np_random_seed seed).
  - destruct (generate_invalid seed size t_pct Hv) as [msg Hmsg]. by rewrite !Hmsg.
Qed.

(** A call that returns leaves the random state that its seed alone
    determines: the state before the call is discarded, and neither [size]
    nor [t_pct] has a part in it. So a call made after another one returns
    what it would have returned on its own. *)
Theorem generate_state_from_seed_alone seed size t_pct size' t_pct' (g h : RandomState) p g1 :
  generate seed size t_pct g = (inr p, g1) →
  np_random_seed seed = inr g1
  ∧ (∀ p' h1, generate seed size' t_pct' h = (inr p', h1) → h1 = g1)
  ∧ (∀ seed2 size2 t_pct2,
       (generate seed size t_pct ≫= λ _, generate seed2 size2 t_pct2) g =
         generate seed2 size2 t_pct2 g1
       ∧ (generate seed2 size2 t_pct2 g1).1 = (generate seed2 size2 t_pct2 h).1).
Proof.
  intros Hgen.
  assert (np_random_seed seed = inr g1) as Hseed.
  { destruct (valid_args size t_pct) eqn:Hv.
    - rewrite generate_seed_step in Hgen by done.
      destruct (np_random_seed seed) as [e|g0]; [done|]. by injection Hgen as _ <-.
    - destruct (generate_invalid seed size t_pct Hv) as [msg Hmsg].
      rewrite Hmsg in Hgen. discriminate. }
  split; [done|]. split.
  - intros p' h1 Hgen'. destruct (valid_args size' t_pct') eqn:Hv.
    + rewrite generate_seed_step, Hseed in Hgen' by done. by injection Hgen' as _ <-.
    + destruct (generate_invalid seed size' t_pct' Hv) as [msg Hmsg].
      rewrite Hmsg in Hgen'. discriminate.
  - intros seed2 size2 t_pct2. split.
    + unfold mbind, M_bind. by rewrite Hgen.
    + apply generate_outcome_ignores_state.
Qed.

(** The defaults of the signature pass the checks: a call that leaves out
    [size] and [t_pct] fails only if numpy rejects the seed, and otherwise
    builds the problem of length 20 with threshold 0.1. *)
Theorem generate_defaults_pass_checks seed (g : RandomState) :
  generate_kw seed None None g =
    match np_random_seed (default 42 seed) with
    | inl e => (inl e, g)
    | inr g' =>
        (inr {| length := 20; fitness_fn := ContinuousPeaks default_t_pct;
                maximize := true; max_val := 2 |}, g')
    end.
Proof.
  unfold generate_kw. simpl. rewrite generate_seed_step; [done|].
  apply valid_args_spec. split; [|split].
  - exists 20. split; [done|lia].
  - done.
  - eexists. split; [reflexivity|]. split; unfold Qle; simpl; lia.
Qed.
End ContinuousPeaksGeneratorOutcomes.

Lemma generate_check_order_witness :
  generate (H := numpy_legacy) 42 (PyFloat (FFinite 20)) (PyStr "0.5") 7 =
    (inl (ValueError [Lit "Size must be a positive integer. Got ";
                      Fmt (PyFloat (FFinite 20))]), 7)
  ∧ generate (H := numpy_legacy) 42 (PyInt 20) (PyFloat FNan) 7 =
    (inl (ValueError [Lit "Threshold percentage must be between 0 and 1. Got ";
                      Fmt (PyFloat FNan)]), 7).
Proof.
  split.
  - apply (proj1 (generate_check_order (H := numpy_legacy) 42 (PyFloat (FFinite 20))
                    (PyStr "0.5") 7)).
    intros (n & Hn & _). discriminate.
  - apply (proj2 (proj2 (generate_check_order (H := numpy_legacy) 42 (PyInt 20)
                           (PyFloat FNan) 7)) FNan).
    + exists 20. split; [reflexivity|lia].
    + reflexivity.
    + right. left. reflexivity.
Defined.


Lemma generate_state_from_seed_alone_witness :
  generate (H := numpy_legacy) 42 (PyInt 20) default_t_pct 7 =
    (inr {| length := 20; fitness_fn := ContinuousPeaks default_t_pct;
            maximize := true; max_val := 2 |}, 42)
  ∧ np_random_seed (Numpy := numpy_legacy) 42 = inr 42.
Proof.
  split; [reflexivity|].
  apply (proj1 (generate_state_from_seed_alone (H := numpy_legacy) 42 (PyInt 20)
                  default_t_pct (PyInt 3) default_t_pct 7 1234 _ 42 eq_refl)).
Defined.


(** * Further properties of the runner *)

Section MIMICRunnerLifecycle.
Context `{Environment}.
Variables (problem : pyval) (experiment_name : string) (seed : Z)
  (iteration_list : list pyval) (max_attempts : Z)
  (generate_curves use_fast_mimic : bool)
  (output_directory : option string) (kwargs : list (string * pyval)).

Local Abbreviation super_args :=
  (Build_RunnerBaseArgs problem experiment_name seed iteration_list max_attempts
     generate_curves output_directory kwargs).

Local Abbreviation super_init :=
  (external (SuperInit super_args) (base_init super_args)).

Local Abbreviation toggle_call l :=
  (external (MethodCall l "set_mimic_fast_mode" [PyBool use_fast_mimic])
     (call_method l "set_mimic_fast_mode" [PyBool use_fast_mimic])).

Local Abbreviation init pops keep :=
  (MIMICRunner_init problem experiment_name seed iteration_list pops keep
     max_attempts generate_curves use_fast_mimic output_directory kwargs).

Local Abbreviation super_setup r :=
  (external SuperSetup (base_setup (base r))).

Local Abbreviation log_flag flag b :=
  (external (LogCurrentArgument "use_fast_mimic" (PyBool flag))
     (base_log_current_argument "use_fast_mimic" (PyBool flag) b)).



(** A problem without a usable toggle is not an error. When the problem is
    not an object at all ([None], a number, a string), when it has no
    attribute [set_mimic_fast_mode], or when it has one that is a plain data
    attribute, the constructor returns as soon as [super().__init__] has,
    calls nothing on the problem and leaves [_use_fast_mimic] at [None]. *)
Theorem init_skips_unusable_toggle pops keep w b w1 :
  super_init w = (inr b, w1) →
  ((∀ l, problem ≠ PyObj l)
   ∨ lookup_attr (heap w1) problem "set_mimic_fast_mode" = None
   ∨ ∃ v, lookup_attr (heap w1) problem "set_mimic_fast_mode" = Some (Field v)) →
  init pops keep w = (inr (runner b pops keep None), w1)
  ∧ calls w1 = calls w ++ [SuperInit super_args].
Proof.
  intros Hsuper Hcase.
  pose proof (external_calls (SuperInit super_args) (base_init super_args) w) as Hcalls.
  rewrite Hsuper in Hcalls. split; [|done].
  apply (init_without_toggle problem experiment_name seed iteration_list max_attempts
           generate_curves use_fast_mimic output_directory kwargs); [done|].
  unfold toggle_available. destruct Hcase as [Hobj|[->|[v ->]]]; try done.
  destruct problem as [| | | | |l]; try done. by destruct (Hobj l).
Qed.

(** Without a usable toggle [use_fast_mimic] has no effect at all: the
    constructor returns the same runner, or raises the same exception, and
    leaves the same heap, outside and calls for either value of the flag. *)
Theorem init_ignores_flag_without_toggle pops keep w flag' :
  (∀ b w1, super_init w = (inr b, w1) → toggle_available (heap w1) problem = false) →
  MIMICRunner_init problem experiment_name seed iteration_list pops keep
    max_attempts generate_curves flag' output_directory kwargs w = init pops keep w.
Proof.
  intros Hnone. destruct (super_init w) as [[e|b] w1] eqn:Hsuper.
  - rewrite (init_super_raises problem experiment_name seed iteration_list max_attempts
               generate_curves use_fast_mimic output_directory kwargs pops keep w e w1 Hsuper).
    by apply (init_super_raises problem experiment_name seed iteration_list max_attempts
                generate_curves flag' output_directory kwargs).
  - rewrite (init_without_toggle problem experiment_name seed iteration_list max_attempts
               generate_curves use_fast_mimic output_directory kwargs pops keep w b w1 Hsuper
               (Hnone b w1 eq_refl)).
    apply (init_without_toggle problem experiment_name seed iteration_list max_attempts
             generate_curves flag' output_directory kwargs pops keep w b w1 Hsuper).
    exact (Hnone b w1 eq_refl).
Qed.

Lemma setup_cases r w :
  _setup r w =
    match super_setup r w with
    | (inl e, w1) => (inl e, w1)
    | (inr b, w1) =>
        match _use_fast_mimic r with
        | Some flag =>
            match log_flag flag b w1 with
            | (inl e, w2) => (inl e, w2)
            | (inr b', w2) => (inr (with_base r b'), w2)
            end
        | None => (inr (with_base r b), w1)
        end
    end.
Proof.
  unfold _setup, mbind, M_bind.
  destruct (super_setup r w) as [[e|b] w1]; [done|]. simpl.
  destruct (_use_fast_mimic r) as [flag|]; [|done]. unfold mret, M_ret.
  by destruct (log_flag flag b w1) as [[e|b'] w2].
Qed.


(** [_setup] raises nothing of its own: what leaves it is the exception of
    [super()._setup()], and then nothing was logged, or the exception of the
    logging call, which is only made on a runner that holds a flag. *)
Theorem setup_raises_only_what_it_calls r w e w' :
  _setup r w = (inl e, w') →
  (super_setup r w = (inl e, w') ∧ calls w' = calls w ++ [SuperSetup])
  ∨ (∃ b w1 flag,
       super_setup r w = (inr b, w1) ∧ _use_fast_mimic r = Some flag
       ∧ log_flag flag b w1 = (inl e, w')).
Proof.
  rewrite setup_cases.
  pose proof (external_calls SuperSetup (base_setup (base r)) w) as Hcalls.
  destruct (super_setup r w) as [[e1|b] w1].
  - intros [= <- <-]. by left.
  - intros Hsetup. right. exists b, w1.
    destruct (_use_fast_mimic r) as [flag|]; [|done]. exists flag.
    destruct (log_flag flag b w1) as [[e2|b'] w2]; [|done].
    by injection Hsetup as <- <-.
Qed.


(** Two runners built on the same problem share it. When the problem has
    the toggle, the second construction calls it again on the same object,
    so the mode of the problem is the one the second runner asked for, while
    the first runner still holds, and would log, the flag it was built
    with. *)
Theorem second_runner_overrides_toggle pops keep w b1 w1 r1 w2
    name2 seed2 its2 attempts2 curves2 flag2 dir2 kw2 pops2 keep2 b2 w3 :
  super_init w = (inr b1, w1) →
  toggle_available (heap w1) problem = true →
  init pops keep w = (inr r1, w2) →
  external (SuperInit (Build_RunnerBaseArgs problem name2 seed2 its2 attempts2 curves2
                         dir2 kw2))
    (base_init (Build_RunnerBaseArgs problem name2 seed2 its2 attempts2 curves2 dir2 kw2))
    w2 = (inr b2, w3) →
  toggle_available (heap w3) problem = true →
  ∃ l, problem = PyObj l
    ∧ _use_fast_mimic r1 = Some use_fast_mimic
    ∧ calls (MIMICRunner_init problem name2 seed2 its2 pops2 keep2 attempts2 curves2
               flag2 dir2 kw2 w2).2 =
        calls w ++
        [SuperInit super_args;
         MethodCall l "set_mimic_fast_mode" [PyBool use_fast_mimic];
         SuperInit (Build_RunnerBaseArgs problem name2 seed2 its2 attempts2 curves2
                      dir2 kw2);
         MethodCall l "set_mimic_fast_mode" [PyBool flag2]]
    ∧ (heap (MIMICRunner_init problem name2 seed2 its2 pops2 keep2 attempts2 curves2
               flag2 dir2 kw2 w2).2,
       out (MIMICRunner_init problem name2 seed2 its2 pops2 keep2 attempts2 curves2
              flag2 dir2 kw2 w2).2) =
        (call_method l "set_mimic_fast_mode" [PyBool flag2] (heap w3, out w3)).2.
Proof.
  intros Hsuper1 Hav1 Hinit1 Hsuper2 Hav2.
  destruct (toggle_available_obj _ _ Hav1) as (l & Hobj & _).
  exists l. split; [done|]. split.
  { rewrite (init_returns problem experiment_name seed iteration_list max_attempts
               generate_curves use_fast_mimic output_directory kwargs pops keep w b1 w1 r1 w2
               Hsuper1 Hinit1).
    by rewrite Hav1. }
  pose proof (init_calls problem experiment_name seed iteration_list max_attempts
                generate_curves use_fast_mimic output_directory kwargs pops keep w b1 w1
                Hsuper1) as Hc1.
  rewrite Hinit1 in Hc1. simpl in Hc1.
  rewrite (toggle_events_available problem use_fast_mimic (heap w1) l Hobj Hav1) in Hc1.
  split.
  - rewrite (init_calls problem name2 seed2 its2 attempts2 curves2 flag2 dir2 kw2
               pops2 keep2 w2 b2 w3 Hsuper2).
    rewrite (toggle_events_available problem flag2 (heap w3) l Hobj Hav2).
    rewrite Hc1, <- app_assoc. done.
  - destruct (init_with_toggle problem name2 seed2 its2 attempts2 curves2 flag2 dir2 kw2
                pops2 keep2 w2 b2 w3 Hsuper2 Hav2) as (l' & Hobj' & ->).
    assert (l' = l) as -> by congruence.
    unfold external.
    by destruct (call_method l "set_mimic_fast_mode" [PyBool flag2] (heap w3, out w3))
      as [[e|v] [h o]].
Qed.
End MIMICRunnerLifecycle.

(** An environment in which the collaborators fail: the problem's toggle
    raises, and so does [super()._setup()]. *)
Definition raising_environment : Environment := {|
  base_state := RunnerBaseArgs;
  outside := unit;
  DataFrame := unit;
  base_init := λ args s, (inr args, s);
  base_setup := λ b s, (inl (PyExc "OSError" [Lit "cannot create the output directory"]), s);
  base_log_current_argument := λ name value b s, (inr b, s);
  base_run_experiment_ := λ alg params b s, (inr ((None, None), b), s);
  call_method := λ l name args s,
    (inl (PyExc "NotImplementedError" [Lit "fast mode is not supported"]), s)
|}.

Definition sample_args (problem : pyval) : RunnerBaseArgs :=
  Build_RunnerBaseArgs problem "exp" 1 [PyInt 1; PyInt 2] 5 true None [].


Lemma init_skips_unusable_toggle_witness :
  MIMICRunner_init (H := plain_environment) PyNone "exp" 1 [PyInt 1; PyInt 2]
    [PyInt 20] [half] 5 true true None [] sample_world =
    (inr (runner (H := plain_environment) (sample_args PyNone, []) [PyInt 20] [half] None),
     @Build_world plain_environment sample_heap tt [SuperInit (sample_args PyNone)]).
Proof.
  apply (proj1 (init_skips_unusable_toggle (H := plain_environment) PyNone "exp" 1
                  [PyInt 1; PyInt 2] 5 true true None [] [PyInt 20] [half] sample_world
                  (sample_args PyNone, [])
                  (@Build_world plain_environment sample_heap tt
                     [SuperInit (sample_args PyNone)])
                  eq_refl (or_introl (λ l Hobj, eq_ind PyNone
                     (λ v, match v with PyNone => True | _ => False end) I _ Hobj)))).
Defined.

Lemma init_ignores_flag_without_toggle_witness :
  MIMICRunner_init (H := plain_environment) without_toggle "exp" 1 [PyInt 1; PyInt 2]
    [PyInt 20] [half] 5 true false None [] sample_world =
  MIMICRunner_init (H := plain_environment) without_toggle "exp" 1 [PyInt 1; PyInt 2]
    [PyInt 20] [half] 5 true true None [] sample_world.
Proof.
  apply (init_ignores_flag_without_toggle (H := plain_environment) without_toggle "exp" 1
           [PyInt 1; PyInt 2] 5 true true None [] [PyInt 20] [half] sample_world false).
  intros b w1 Hsuper. injection Hsuper as _ <-. exact sample_toggle_unavailable.
Defined.

Lemma setup_raises_only_what_it_calls_witness :
  external (H := raising_environment) SuperSetup
    (base_setup (Environment := raising_environment) (sample_args with_toggle))
    (@Build_world raising_environment sample_heap tt []) =
    (inl (PyExc "OSError" [Lit "cannot create the output directory"]),
     @Build_world raising_environment sample_heap tt [SuperSetup])
  ∧ [SuperSetup] = [] ++ [SuperSetup].
Proof.
  destruct (setup_raises_only_what_it_calls (H := raising_environment)
              (runner (H := raising_environment) (sample_args with_toggle)
                 [PyInt 20] [half] (Some true))
              (@Build_world raising_environment sample_heap tt [])
              _ _ eq_refl) as [Hsuper|(b & w1 & flag & Hsuper & _)];
    [exact Hsuper | discriminate Hsuper].
Defined.


Lemma sample_toggle_still_available flag :
  toggle_available (store_flag 1%positive (PyBool flag) sample_heap) with_toggle = true.
Proof. destruct flag; vm_compute; reflexivity. Qed.

Lemma second_runner_overrides_toggle_witness :
  ∃ l, with_toggle = PyObj l
    ∧ _use_fast_mimic
        (runner (H := plain_environment) (sample_args with_toggle, []) [PyInt 20] [half]
           (Some true)) = Some true
    ∧ lookup_attr
        (heap (MIMICRunner_init (H := plain_environment) with_toggle "again" 2 [PyInt 4]
                 [PyInt 50] [half] 9 false false None []
                 (@Build_world plain_environment
                    (store_flag 1%positive (PyBool true) sample_heap) tt
                    [SuperInit (sample_args with_toggle);
                     MethodCall 1%positive "set_mimic_fast_mode" [PyBool true]])).2)
        with_toggle "mimic_fast_mode" = Some (Field (PyBool false)).
Proof.
  destruct (second_runner_overrides_toggle (H := plain_environment) with_toggle "exp" 1
              [PyInt 1; PyInt 2] 5 true true None [] [PyInt 20] [half] sample_world
              (sample_args with_toggle, [])
              (@Build_world plain_environment sample_heap tt
                 [SuperInit (sample_args with_toggle)])
              _ _
              "again" 2 [PyInt 4] 9 false false None [] [PyInt 50] [half]
              (Build_RunnerBaseArgs with_toggle "again" 2 [PyInt 4] 9 false None [], [])
              (@Build_world plain_environment
                 (store_flag 1%positive (PyBool true) sample_heap) tt
                 [SuperInit (sample_args with_toggle);
                  MethodCall 1%positive "set_mimic_fast_mode" [PyBool true];
                  SuperInit (Build_RunnerBaseArgs with_toggle "again" 2 [PyInt 4] 9 false
                               None [])])
              eq_refl sample_toggle_available
              (sample_init_with_toggle "exp" 1 [PyInt 1; PyInt 2] 5 true true None []
                 [PyInt 20] [half])
              eq_refl (sample_toggle_still_available true))
    as (l & Hobj & Hflag & _ & Hstore).
  exists l. split; [exact Hobj|]. split; [exact Hflag|].
  injection Hobj as <-.
  apply (f_equal fst) in Hstore. cbn [fst] in Hstore. unfold sample_args.
  rewrite Hstore. vm_compute. reflexivity.
Defined.
